(** * The tracing front-end of Catalyst: [frontend/catalyst/pennylane_extensions.py]

    A shallow embedding of the control-flow builders ([cond], [while_loop],
    [for_loop]), the differentiation builder ([grad]), the mid-circuit
    measurement ([measure]) and the device adapter ([QJITDevice]), with the
    properties of the design document proved about them.

    Python code that raises, queues operations into the active recording
    context, binds JAX primitives or draws a UUID is written in a state and
    exception monad [M]; the state survives a raised exception, as the
    effects of a Python call survive the exception it raises. *)

From Stdlib Require Import List String Ascii ZArith NArith Bool Arith Lia.
Import ListNotations.

#[local] Set Warnings "-register-all".

Local Open Scope string_scope.
Local Open Scope list_scope.

(** ** Python objects *)

(** The Python values the builders inspect with [is None] and [isinstance]:
    [None], [bool], [int], [float] (a decimal literal [m]e[e]), [str] and
    lists of them. *)
Inductive pyobj : Type :=
| PyNone
| PyBool (b : bool)
| PyInt (z : Z)
| PyFloat (m e : Z)
| PyStr (s : string)
| PyList (l : list pyobj).

(** [isinstance(o, numbers.Number)]: [bool] is a subclass of [int]. *)
Definition is_Number (o : pyobj) : bool :=
  match o with
  | PyBool _ | PyInt _ | PyFloat _ _ => true
  | _ => false
  end.

(** [isinstance(o, int)]. *)
Definition is_int (o : pyobj) : bool :=
  match o with
  | PyBool _ | PyInt _ => true
  | _ => false
  end.

Definition is_None (o : pyobj) : bool :=
  match o with PyNone => true | _ => false end.

(** The exceptions raised by this file and by the PennyLane device it
    extends, with the static text of their message (the formatted types
    that some messages end with are left out). *)
Inductive exn : Type :=
| TypeError (msg : string)
| ValueError (msg : string)
| AssertionError (msg : string)
| AttributeError (msg : string)
| IndexError (msg : string)
| DeviceError (msg : string).

Inductive result (A : Type) : Type :=
| Ok (a : A)
| Raise (e : exn).
Arguments Ok {A} a.
Arguments Raise {A} e.

Definition is_Ok {A} (r : result A) : bool :=
  match r with Ok _ => true | Raise _ => false end.

(** ** JAX abstract values and pytrees *)

Inductive dtype : Type := bool_ | int64 | float64 | complex128.

Definition dtype_eq_dec (a b : dtype) : {a = b} + {a <> b}.
Proof. decide equality. Defined.

(** [jax.ShapedArray(shape, dtype, weak_type, named_shape)]. *)
Record ShapedArray : Type := mkShapedArray {
  shape : list nat;
  sa_dtype : dtype;
  weak_type : bool;
  named_shape : list (string * nat)
}.

Definition strip_weak_type (a : ShapedArray) : ShapedArray :=
  mkShapedArray (shape a) (sa_dtype a) false (named_shape a).

Definition strip_named_shape (a : ShapedArray) : ShapedArray :=
  mkShapedArray (shape a) (sa_dtype a) (weak_type a) [].

(** [ShapedArray.__eq__]: same shape, dtype, weak type and named shape. *)
Definition ShapedArray_eq_dec (a b : ShapedArray) : {a = b} + {a <> b}.
Proof.
  decide equality.
  - apply list_eq_dec. decide equality; [apply Nat.eq_dec | apply string_dec].
  - apply bool_dec.
  - apply dtype_eq_dec.
  - apply list_eq_dec, Nat.eq_dec.
Defined.

(** Abstract values: arrays, and the two opaque quantum types of
    [catalyst.jax_primitives]. *)
Inductive aval : Type :=
| Shaped (a : ShapedArray)
| AbstractQreg
| AbstractQbit.

Definition aval_eq_dec (a b : aval) : {a = b} + {a <> b}.
Proof. decide equality. apply ShapedArray_eq_dec. Defined.

(** Python's [==] on lists of abstract values. *)
Definition avals_eqb (l1 l2 : list aval) : bool :=
  if list_eq_dec aval_eq_dec l1 l2 then true else false.

(** [ShapedArray((), jnp.bool_)]. *)
Definition bool_scalar : ShapedArray := mkShapedArray [] bool_ false [].

Definition scalar (d : dtype) (weak : bool) : aval :=
  Shaped (mkShapedArray [] d weak []).

(** The leaves of the pytrees handled here: Python scalars, tracers (a
    placeholder with an identity and an abstract value) and the register
    object [jprim.Qreg()]. *)
Inductive val : Type :=
| VBool (b : bool)
| VInt (z : Z)
| VFloat (m e : Z)
| Tracer (id : nat) (a : aval)
| Qreg.

(** [_abstractify] / [jax.core.get_aval]. *)
Definition _abstractify (v : val) : aval :=
  match v with
  | VBool _ => scalar bool_ false
  | VInt _ => scalar int64 true
  | VFloat _ _ => scalar float64 true
  | Tracer _ a => a
  | Qreg => AbstractQreg
  end.

Inductive pytree (A : Type) : Type :=
| PNone
| PLeaf (a : A)
| PTuple (l : list (pytree A))
| PSeq (l : list (pytree A)).
Arguments PNone {A}.
Arguments PLeaf {A} a.
Arguments PTuple {A} l.
Arguments PSeq {A} l.

Inductive treedef : Type :=
| TNone
| TLeaf
| TTuple (l : list treedef)
| TSeq (l : list treedef).

Fixpoint leaves {A} (t : pytree A) : list A :=
  match t with
  | PNone => []
  | PLeaf a => [a]
  | PTuple l => flat_map leaves l
  | PSeq l => flat_map leaves l
  end.

Fixpoint tree_structure {A} (t : pytree A) : treedef :=
  match t with
  | PNone => TNone
  | PLeaf _ => TLeaf
  | PTuple l => TTuple (map tree_structure l)
  | PSeq l => TSeq (map tree_structure l)
  end.

Definition tree_flatten {A} (t : pytree A) : list A * treedef :=
  (leaves t, tree_structure t).

Fixpoint num_nodes (d : treedef) : nat :=
  match d with
  | TNone => 1
  | TLeaf => 1
  | TTuple l => S (list_sum (map num_nodes l))
  | TSeq l => S (list_sum (map num_nodes l))
  end.

(** [treedef_is_leaf]: a tree definition of one node; that of [None] is
    one too, with no leaf. *)
Definition treedef_is_leaf (d : treedef) : bool := Nat.eqb (num_nodes d) 1.

(** [tree_unflatten], [None] when the leaves run out (JAX raises). *)
Fixpoint unflatten_from {A} (d : treedef) (xs : list A)
  : option (pytree A * list A) :=
  match d with
  | TNone => Some (PNone, xs)
  | TLeaf => match xs with
             | x :: r => Some (PLeaf x, r)
             | [] => None
             end
  | TTuple ds =>
      match (fix go (ds : list treedef) (xs : list A)
               : option (list (pytree A) * list A) :=
               match ds with
               | [] => Some ([], xs)
               | d :: ds' =>
                   match unflatten_from d xs with
                   | Some (t, r) =>
                       match go ds' r with
                       | Some (ts, r') => Some (t :: ts, r')
                       | None => None
                       end
                   | None => None
                   end
               end) ds xs with
      | Some (ts, r) => Some (PTuple ts, r)
      | None => None
      end
  | TSeq ds =>
      match (fix go (ds : list treedef) (xs : list A)
               : option (list (pytree A) * list A) :=
               match ds with
               | [] => Some ([], xs)
               | d :: ds' =>
                   match unflatten_from d xs with
                   | Some (t, r) =>
                       match go ds' r with
                       | Some (ts, r') => Some (t :: ts, r')
                       | None => None
                       end
                   | None => None
                   end
               end) ds xs with
      | Some (ts, r) => Some (PSeq ts, r)
      | None => None
      end
  end.

Definition tree_unflatten {A} (d : treedef) (xs : list A)
  : option (pytree A) :=
  match unflatten_from d xs with
  | Some (t, []) => Some t
  | _ => None
  end.

(** Python's [l[:-1]] and [l[-1]]. *)
Definition but_last {A} (l : list A) : list A := removelast l.

(** ** Captured programs *)

Inductive primitive : Type :=
| func_p
| grad_p
| qcond_p
| qwhile_p
| qfor_p
| qmeasure_p
| qinst_p
| other_p (name : string).

Definition primitive_eqb (p q : primitive) : bool :=
  match p, q with
  | func_p, func_p | grad_p, grad_p | qcond_p, qcond_p
  | qwhile_p, qwhile_p | qfor_p, qfor_p | qmeasure_p, qmeasure_p
  | qinst_p, qinst_p => true
  | other_p a, other_p b => String.eqb a b
  | _, _ => false
  end.

(** A sub-program: the abstract types of its inputs, its operations in
    order and the abstract types of its outputs. An operation has a
    primitive, operands, the sub-programs it refers to, keyword parameters
    and results. *)
Inductive jaxpr : Type :=
| Jaxpr (ins : list aval) (body : list eqn) (outs : list aval)
with eqn : Type :=
| Eqn (prim : primitive) (invars : list val) (subjaxprs : list jaxpr)
      (params : list (string * pyobj)) (outvars : list val).

Definition in_avals (j : jaxpr) : list aval :=
  match j with Jaxpr i _ _ => i end.
Definition eqns (j : jaxpr) : list eqn :=
  match j with Jaxpr _ b _ => b end.
Definition out_avals (j : jaxpr) : list aval :=
  match j with Jaxpr _ _ o => o end.
Definition eqn_primitive (e : eqn) : primitive :=
  match e with Eqn p _ _ _ _ => p end.
Definition eqn_invars (e : eqn) : list val :=
  match e with Eqn _ i _ _ _ => i end.
Definition eqn_subjaxprs (e : eqn) : list jaxpr :=
  match e with Eqn _ _ s _ _ => s end.
Definition eqn_params (e : eqn) : list (string * pyobj) :=
  match e with Eqn _ _ _ p _ => p end.
Definition eqn_outvars (e : eqn) : list val :=
  match e with Eqn _ _ _ _ o => o end.

(** ** PennyLane operations and tapes *)

(** The classes the device adapter tests with [isinstance] or patches. *)
Inductive opclass : Type :=
| PlainOperation
| ControlledQubitUnitaryClass
| ControlledClass
| MidMeasureMPClass.

(** An operation queued on a tape: a gate of the gate library (with its
    class, data, wires and the decomposition the library defines for it,
    if any), or one of the operations this file declares. The data of a
    gate is a value or the matrix [qml.matrix(op)] of another operation. *)
Inductive operation : Type :=
| Gate (name : string) (cls : opclass) (data : list opdata)
       (wires : list nat) (decomp : option (list operation))
| MidCircuitMeasure (measurement_id : string) (wires : list nat)
| Cond (pred : val) (consts : list val) (true_jaxpr false_jaxpr : jaxpr)
       (args_tree : treedef) (out_trees : list treedef)
| WhileLoop (iter_args : list val) (body_jaxpr cond_jaxpr : jaxpr)
            (cond_consts body_consts : list val) (body_tree : treedef)
| ForLoop (loop_bounds : list val) (iter_args : list val)
          (body_jaxpr : jaxpr) (body_consts : list val)
          (body_tree : treedef)
with opdata : Type :=
| Param (v : val)
| MatrixOf (op : operation).

(** [op.name]: the class name. *)
Definition op_name (op : operation) : string :=
  match op with
  | Gate n _ _ _ _ => n
  | MidCircuitMeasure _ _ => "MidCircuitMeasure"
  | Cond _ _ _ _ _ _ => "Cond"
  | WhileLoop _ _ _ _ _ _ => "WhileLoop"
  | ForLoop _ _ _ _ _ => "ForLoop"
  end.

Definition op_class (op : operation) : opclass :=
  match op with
  | Gate _ c _ _ _ => c
  | _ => PlainOperation
  end.

(** [op.wires]; the control-flow operations are built on the [AnyWires]
    marker and act on no wire of their own. *)
Definition op_wires (op : operation) : list nat :=
  match op with
  | Gate _ _ _ w _ => w
  | MidCircuitMeasure _ w => w
  | _ => []
  end.

(** [op.decomposition()] as the gate library defines it. *)
Definition op_decomposition (op : operation) : option (list operation) :=
  match op with
  | Gate _ _ _ _ d => d
  | _ => None
  end.

Record observable : Type := mkObservable {
  obs_name : string;
  obs_wires : list nat
}.

(** A recording context: a tape with its queued operations and measured
    observables; [has_jax_tape] is [hasattr(ctx, "jax_tape")]. *)
Record QuantumTape : Type := mkTape {
  has_jax_tape : bool;
  circuit_operations : list operation;
  circuit_observables : list observable
}.

Definition tape_append (op : operation) (t : QuantumTape) : QuantumTape :=
  mkTape (has_jax_tape t) (circuit_operations t ++ [op])
         (circuit_observables t).

(** ** The tracing monad *)

(** What a call can read and change: the [TracingContext] flag, the
    equations bound so far in the program being captured, the stack of
    active recording contexts of [qml.QueuingManager] (innermost first),
    the supply of tracer identities and the source of [uuid.uuid4()]. *)
Record state : Type := mkState {
  is_tracing : bool;
  trace : list eqn;
  active_contexts : list QuantumTape;
  next_tracer : nat;
  uuid_source : nat -> N;
  uuid_drawn : nat
}.

Definition set_trace (l : list eqn) (s : state) : state :=
  mkState (is_tracing s) l (active_contexts s) (next_tracer s)
          (uuid_source s) (uuid_drawn s).

Definition set_contexts (c : list QuantumTape) (s : state) : state :=
  mkState (is_tracing s) (trace s) c (next_tracer s)
          (uuid_source s) (uuid_drawn s).

Definition M (A : Type) : Type := state -> result A * state.

Definition ret {A} (a : A) : M A := fun s => (Ok a, s).

Definition raise {A} (e : exn) : M A := fun s => (Raise e, s).

Definition mbind {A B} (m : M A) (k : A -> M B) : M B :=
  fun s =>
    match m s with
    | (Ok a, s') => k a s'
    | (Raise e, s') => (Raise e, s')
    end.

Declare Scope py_scope.
Delimit Scope py_scope with py.
Notation "x <- m ;; k" := (mbind m (fun x => k))
  (at level 100, m at next level, right associativity) : py_scope.
Notation "' p <- m ;; k" := (mbind m (fun x => let p := x in k))
  (at level 100, p pattern, m at next level, right associativity)
  : py_scope.
Notation "m ;;; k" := (mbind m (fun _ => k))
  (at level 100, right associativity) : py_scope.
Local Open Scope py_scope.

(** [assert c, msg]. *)
Definition assert (c : bool) (msg : string) : M unit :=
  if c then ret tt else raise (AssertionError msg).

Definition lift {A} (r : result A) : M A :=
  match r with Ok a => ret a | Raise e => raise e end.

Definition get_state : M state := fun s => (Ok s, s).

(** [qml.QueuingManager.active_context()]: the innermost context, or
    [None]. *)
Definition active_context : M (option QuantumTape) :=
  fun s => (Ok (hd_error (active_contexts s)), s).

(** [QueuingManager.append]: an operation queues itself into the active
    context, if there is one. *)
Definition queue (op : operation) : M unit :=
  fun s =>
    match active_contexts s with
    | ctx :: rest => (Ok tt, set_contexts (tape_append op ctx :: rest) s)
    | [] => (Ok tt, s)
    end.

Definition new_tracer (a : aval) : M val :=
  fun s =>
    (Ok (Tracer (next_tracer s) a),
     mkState (is_tracing s) (trace s) (active_contexts s)
             (S (next_tracer s)) (uuid_source s) (uuid_drawn s)).

Fixpoint new_tracers (l : list aval) : M (list val) :=
  match l with
  | [] => ret []
  | a :: r =>
      v <- new_tracer a ;;
      vs <- new_tracers r ;;
      ret (v :: vs)
  end.

(** [Primitive.bind]: one equation is added to the program being
    captured, and tracers stand for its results. *)
Definition Primitive_bind (p : primitive) (invars : list val)
    (subjaxprs : list jaxpr) (params : list (string * pyobj))
    (result_avals : list aval) : M (list val) :=
  outs <- new_tracers result_avals ;;
  fun s =>
    (Ok outs, set_trace (trace s ++ [Eqn p invars subjaxprs params outs]) s).

(** [uuid.uuid4()]: the next 128-bit value of the source. *)
Definition uuid4 : M N :=
  fun s =>
    (Ok (N.modulo (uuid_source s (uuid_drawn s)) (2 ^ 128)),
     mkState (is_tracing s) (trace s) (active_contexts s) (next_tracer s)
             (uuid_source s) (S (uuid_drawn s))).

Definition hex_digit (n : N) : ascii :=
  match n with
  | 0%N => "0" | 1%N => "1" | 2%N => "2" | 3%N => "3" | 4%N => "4"
  | 5%N => "5" | 6%N => "6" | 7%N => "7" | 8%N => "8" | 9%N => "9"
  | 10%N => "a" | 11%N => "b" | 12%N => "c" | 13%N => "d" | 14%N => "e"
  | _ => "f"
  end%char.

(** The [w] lowest hexadecimal digits of [n], most significant first. *)
Fixpoint hex (w : nat) (n : N) : string :=
  match w with
  | O => EmptyString
  | S w' => String.append (hex w' (N.div n 16))
                          (String (hex_digit (N.modulo n 16)) EmptyString)
  end.

(** [str(u)] of a UUID: 32 hexadecimal digits in groups of 8, 4, 4, 4 and
    12, separated by hyphens. *)
Definition str_uuid (u : N) : string :=
  String.append (hex 8 (N.shiftr u 96))
   (String.append "-" (String.append (hex 4 (N.shiftr u 80))
    (String.append "-" (String.append (hex 4 (N.shiftr u 64))
     (String.append "-" (String.append (hex 4 (N.shiftr u 48))
      (String.append "-" (hex 12 u)))))))).

(** What calling a Python callable on positional arguments does during
    tracing. *)
Definition pyfun : Type := list (pytree val) -> M (pytree val).

(** A Python function object: the [co_argcount] of its code object and
    its behaviour. *)
Record pyfunction : Type := mkFun {
  co_argcount : nat;
  call : pyfun
}.

(** [lambda: None]. *)
Definition lambda_None : pyfunction := mkFun 0 (fun _ => ret PNone).

(** A callable handed to [grad]: its [__name__], whether it is a
    [qml.QNode], and its behaviour. *)
Record callable : Type := mkCallable {
  callable_name : string;
  is_QNode : bool;
  callable_call : pyfun
}.

(** ** The Tracer Context (JAX and [catalyst.jax_tape] / [jax_tracer]) *)

Definition is_outer_tracer (first_inner : nat) (v : val) : bool :=
  match v with
  | Tracer i _ => Nat.ltb i first_inner
  | _ => false
  end.

Fixpoint dedup_tracers (seen : list nat) (l : list val) : list val :=
  match l with
  | [] => []
  | Tracer i a :: r =>
      if existsb (Nat.eqb i) seen then dedup_tracers seen r
      else Tracer i a :: dedup_tracers (i :: seen) r
  | v :: r => v :: dedup_tracers seen r
  end.

(** The captured constants of a sub-program: the tracers of enclosing
    programs that its operations or its outputs refer to. *)
Definition closed_over (first_inner : nat) (body : list eqn)
    (outs : list val) : list val :=
  dedup_tracers []
    (filter (is_outer_tracer first_inner) (flat_map eqn_invars body ++ outs)).

(** The positional arguments of the call of the captured function on the
    unflattened example inputs. *)
Definition star_args (t : pytree val) : list (pytree val) :=
  match t with
  | PTuple l => l
  | PSeq l => l
  | _ => []
  end.

(** Modelled from the spec: the capture procedure of the Tracer Context,
    JAX's [_initial_style_jaxpr], which is not part of the sources
    ([capture(function, exampleInputs) -> (subProgram, capturedConstants,
    outputTreeShape)]). The callable runs on fresh tracers of the example
    abstract inputs; the equations it binds form the sub-program, and the
    enclosing program is resumed where it was, also when the callable
    raises. *)
Definition _initial_style_jaxpr (f : pyfun)
    (in_tree : treedef) (in_avals : list aval)
  : M (jaxpr * list val * treedef) :=
  fun s =>
    let outer := trace s in
    let first_inner := next_tracer s in
    let run :=
      (flat_args <- new_tracers in_avals ;;
       match tree_unflatten in_tree flat_args with
       | Some py_args => f (star_args py_args)
       | None => raise (ValueError "Too few leaves for PyTreeDef")
       end) in
    match run (set_trace [] s) with
    | (Ok ans, s') =>
        let '(out_flat, out_tree) := tree_flatten ans in
        (Ok (Jaxpr in_avals (trace s') (map _abstractify out_flat),
             closed_over first_inner (trace s') out_flat,
             out_tree),
         set_trace outer s')
    | (Raise e, s') => (Raise e, set_trace outer s')
    end.

(** Modelled from the spec: JAX's
    [_initial_style_jaxprs_with_common_consts] for two callables, captured
    in order, with the captured constants of both. *)
Definition _initial_style_jaxprs_with_common_consts
    (f1 f2 : pyfun)
    (in_tree : treedef) (in_avals : list aval)
  : M ((jaxpr * jaxpr) * list val * list treedef) :=
  '(j1, c1, t1) <- _initial_style_jaxpr f1 in_tree in_avals ;;
  '(j2, c2, t2) <- _initial_style_jaxpr f2 in_tree in_avals ;;
  ret ((j1, j2), dedup_tracers [] (c1 ++ c2), [t1; t2]).

(** Modelled from the spec: [jax.make_jaxpr(f)] applied to arguments, the
    capture of a callable on the abstract values of actual arguments. *)
Definition make_jaxpr (f : pyfun)
    (args : list (pytree val)) : M jaxpr :=
  let '(flat, in_tree) := tree_flatten (PTuple args) in
  '(j, _, _) <- _initial_style_jaxpr f in_tree (map _abstractify flat) ;;
  ret j.

(** Modelled from the spec: [JaxTape.create_tracer(tree, avals)], a
    placeholder per abstract type, in the given tree shape. *)
Definition create_tracer (t : treedef) (a : list aval) : M (pytree val) :=
  vs <- new_tracers a ;;
  match tree_unflatten t vs with
  | Some r => ret r
  | None => raise (ValueError "Too few leaves for PyTreeDef")
  end.

(** [with JaxTape(do_queue=False) as tape: with tape.quantum_tape: ...]: a
    fresh tape with tracing support is the active context while the block
    runs, and is left when the block ends or raises. *)
Definition with_JaxTape {A} (block : M A) : M (A * QuantumTape) :=
  fun s =>
    let pop s' :=
      (hd (mkTape true [] []) (active_contexts s'),
       set_contexts (tl (active_contexts s')) s') in
    match block (set_contexts (mkTape true [] [] :: active_contexts s) s) with
    | (Ok a, s') => (Ok (a, fst (pop s')), snd (pop s'))
    | (Raise e, s') => (Raise e, snd (pop s'))
    end.

Definition val_of_opdata (d : opdata) : list val :=
  match d with Param v => [v] | MatrixOf _ => [] end.

(** Modelled from the spec: the translation of one queued operation into
    an operation of the functional program that consumes the register
    [qreg] and produces the register [qreg'] (the Quantum Tape Adapter,
    [catalyst.jax_tracer], is not part of the sources). *)
Definition eqn_of_operation (qreg : list val) (op : operation)
    (qreg' : val) : eqn :=
  match op with
  | Gate n _ data w _ =>
      Eqn qinst_p (flat_map val_of_opdata data ++ qreg) []
          [("op", PyStr n); ("wires", PyList (map (fun i => PyInt (Z.of_nat i)) w))]
          [qreg']
  | MidCircuitMeasure id w =>
      Eqn qmeasure_p qreg []
          [("id", PyStr id); ("wires", PyList (map (fun i => PyInt (Z.of_nat i)) w))]
          [qreg']
  | Cond pred consts tj fj _ _ =>
      Eqn qcond_p (pred :: consts ++ qreg) [tj; fj] [] [qreg']
  | WhileLoop iter_args bj cj cc bc _ =>
      Eqn qwhile_p (cc ++ bc ++ iter_args ++ qreg) [cj; bj]
          [("cond_nconsts", PyInt (Z.of_nat (List.length cc)));
           ("body_nconsts", PyInt (Z.of_nat (List.length bc)))]
          [qreg']
  | ForLoop bounds iter_args bj bc _ =>
      Eqn qfor_p (bounds ++ bc ++ iter_args ++ qreg) [bj]
          [("body_nconsts", PyInt (Z.of_nat (List.length bc)))]
          [qreg']
  end.

Fixpoint thread_register (ops : list operation) (qreg : pytree val)
  : M (pytree val) :=
  match ops with
  | [] => ret qreg
  | op :: rest =>
      qreg' <- new_tracer AbstractQreg ;;
      (fun s =>
         (Ok tt,
          set_trace (trace s ++ [eqn_of_operation (leaves qreg) op qreg']) s)) ;;;
      thread_register rest (PLeaf qreg')
  end.

(** Modelled from the spec: [trace_quantum_tape(tape, qreg,
    has_tracer_return_values)] of the Register Threading Protocol: the
    operations of the tape are translated in queued order, starting from
    [qreg]; the user outputs are the recorded return value, empty when the
    function returned [None]. Qubits are not extracted one by one here, so
    no qubit state is left to insert. *)
Definition trace_quantum_tape (tape : QuantumTape) (return_val : pytree val)
    (qreg : pytree val) (has_tracer_return_values : bool)
  : M (pytree val * pytree val * list val) :=
  qreg' <- thread_register (circuit_operations tape) qreg ;;
  ret (if has_tracer_return_values then return_val else PNone, qreg', []).

(** Modelled from the spec: [insert_to_qreg(qubit_states, qreg)]. *)
Definition insert_to_qreg (qubit_states : list val) (qreg : pytree val)
  : M (pytree val) :=
  ret qreg.

(** Modelled from the spec: [TracingContext.check_is_tracing(msg)], which
    refuses a call outside a tracing context ([catalyst.utils.tracing] is
    not part of the sources; the docstrings of this file name the error
    [ValueError]). *)
Definition check_is_tracing (msg : string) : M unit :=
  fun s => if is_tracing s then (Ok tt, s) else (Raise (ValueError msg), s).

Definition is_not_None {A} (t : pytree A) : bool :=
  match t with PNone => false | _ => true end.

(** ** The device adapter *)

Module QJITDevice.

Definition short_name : string := "qjit.device".

Definition operations : list string :=
  [ "MidCircuitMeasure"; "Cond"; "WhileLoop"; "ForLoop";
    "PauliX"; "PauliY"; "PauliZ"; "Hadamard"; "Identity"; "S"; "T";
    "PhaseShift"; "RX"; "RY"; "RZ"; "CNOT"; "CY"; "CZ"; "SWAP";
    "IsingXX"; "IsingYY"; "IsingXY"; "IsingZZ"; "ControlledPhaseShift";
    "CRX"; "CRY"; "CRZ"; "CRot"; "CSWAP"; "MultiRZ"; "QubitUnitary" ].

Definition observables : list string :=
  [ "Identity"; "PauliX"; "PauliY"; "PauliZ"; "Hadamard"; "Hermitian";
    "Hamiltonian" ].

(** Modelled from the spec: PennyLane's [Device.supports_operation],
    [supports_observable] and [stopping_condition], which consult the two
    declared lists by name. *)
Definition supports_operation (name : string) : bool :=
  existsb (String.eqb name) operations.

Definition supports_observable (name : string) : bool :=
  existsb (String.eqb name) observables.

Definition stopping_condition (op : operation) : bool :=
  supports_operation (op_name op).

(** [qml.QubitUnitary(qml.matrix(self), wires=self.wires)]. *)
Definition QubitUnitary_of (self : operation) : operation :=
  Gate "QubitUnitary" PlainOperation [MatrixOf self] (op_wires self) None.

Definition _decomp_controlled_unitary (self : operation) : list operation :=
  [QubitUnitary_of self].

Definition _decomp_controlled (self : operation) : list operation :=
  [QubitUnitary_of self].

(** The methods of the gate library as they are inside the [with Patcher]
    block: [ControlledQubitUnitary.compute_decomposition],
    [Controlled.has_decomposition] and [Controlled.decomposition] are
    replaced, the other classes keep theirs. *)
Definition has_decomposition (op : operation) : bool :=
  match op_class op with
  | ControlledClass => true
  | ControlledQubitUnitaryClass => true
  | _ => match op_decomposition op with Some _ => true | None => false end
  end.

Definition decomposition (op : operation) : list operation :=
  match op_class op with
  | ControlledQubitUnitaryClass => _decomp_controlled_unitary op
  | ControlledClass => _decomp_controlled op
  | _ => match op_decomposition op with Some l => l | None => [] end
  end.

(** Modelled from the spec: the fixed-point expansion of the gate library
    ([Device.default_expand_fn] of PennyLane), bounded by [depth]: an
    operation the device stops at is kept, another one is replaced by the
    expansion of its decomposition when it has one. *)
Fixpoint expand_operations (depth : nat) (ops : list operation)
  : list operation :=
  match depth with
  | O => ops
  | S d =>
      flat_map
        (fun op =>
           if stopping_condition op then [op]
           else if has_decomposition op
                then expand_operations d (decomposition op)
                else [op])
        ops
  end.

Definition super_default_expand_fn (circuit : QuantumTape)
    (max_expansion : nat) : QuantumTape :=
  mkTape (has_jax_tape circuit)
         (expand_operations max_expansion (circuit_operations circuit))
         (circuit_observables circuit).

Definition unsupported_gate (name : string) : exn :=
  DeviceError
    (String.append "Gate "
       (String.append name (String.append " not supported on device " short_name))).

Definition unsupported_observable (name : string) : exn :=
  DeviceError
    (String.append "Observable "
       (String.append name (String.append " not supported on device " short_name))).

(** Modelled from the spec: PennyLane's [Device.check_validity(queue,
    observables)], which fails on the first operation of [queue], then on
    the first observable of [observables], that the device does not
    declare. *)
Fixpoint check_validity (queue : list operation) (obs : list observable)
  : result unit :=
  match queue with
  | o :: rest =>
      if stopping_condition o then check_validity rest obs
      else Raise (unsupported_gate (op_name o))
  | [] =>
      match find (fun o => negb (supports_observable (obs_name o))) obs with
      | Some o => Raise (unsupported_observable (obs_name o))
      | None => Ok tt
      end
  end.

Definition is_MidMeasureMP (op : operation) : bool :=
  match op_class op with MidMeasureMPClass => true | _ => false end.

Definition msg_foreign_measure : string :=
  "Must use 'measure' from Catalyst instead of PennyLane.".

Definition default_expand_fn (circuit : QuantumTape) (max_expansion : nat)
  : result QuantumTape :=
  if existsb is_MidMeasureMP (circuit_operations circuit)
  then Raise (TypeError msg_foreign_measure)
  else
    let expanded_tape := super_default_expand_fn circuit max_expansion in
    match check_validity (circuit_operations expanded_tape) [] with
    | Raise e => Raise e
    | Ok _ => Ok expanded_tape
    end.

(** [Device.expand_fn(circuit, max_expansion=10)]. *)
Definition expand_fn (circuit : QuantumTape) : result QuantumTape :=
  default_expand_fn circuit 10.

End QJITDevice.

(** [return_values, qreg = ...]: the body shared, word for word, by
    [new_true_fn], [new_false_fn] and the two [new_body] wrappers: the
    function runs on a fresh tape, the tape is expanded by the device and
    translated from the register [qreg]. *)
Definition run_on_tape (fn : M (pytree val)) (qreg : pytree val)
    (has_tracer_return_values : pytree val -> bool)
  : M (pytree val) :=
  '(out, quantum_tape) <- with_JaxTape fn ;;
  new_quantum_tape <- lift (QJITDevice.expand_fn quantum_tape) ;;
  '(return_values, qreg1, qubit_states) <-
     trace_quantum_tape new_quantum_tape out qreg
                        (has_tracer_return_values out) ;;
  qreg2 <- insert_to_qreg qubit_states qreg1 ;;
  ret (PTuple [return_values; qreg2]).

(** Modelled from the spec: the primitives of [catalyst.jax_primitives]
    that emit the IR nodes [FunctionCall], [Gradient], [Conditional],
    [WhileLoop] and [CountedLoop]: each binds one equation carrying the
    sub-programs and parameters it is given, with placeholders for the
    outputs of the first (for a loop: the body) sub-program. *)
Definition func_bind (jaxpr_ : jaxpr) (args : list val) (fn : string)
  : M (list val) :=
  Primitive_bind func_p args [jaxpr_] [("fn", PyStr fn)] (out_avals jaxpr_).

Definition grad_bind (args : list val) (jaxpr_ : jaxpr) (fn : string)
    (method : string) (h argnum : pyobj) : M (list val) :=
  Primitive_bind grad_p args [jaxpr_]
    [("fn", PyStr fn); ("method", PyStr method); ("h", h); ("argnum", argnum)]
    (out_avals jaxpr_).

Definition qcond (true_jaxpr false_jaxpr : jaxpr) (inputs : list val)
  : M (list val) :=
  Primitive_bind qcond_p inputs [true_jaxpr; false_jaxpr] []
                 (out_avals true_jaxpr).

Definition qwhile (cond_jaxpr body_jaxpr : jaxpr)
    (cond_nconsts body_nconsts : nat) (inputs : list val) : M (list val) :=
  Primitive_bind qwhile_p inputs [cond_jaxpr; body_jaxpr]
    [("cond_nconsts", PyInt (Z.of_nat cond_nconsts));
     ("body_nconsts", PyInt (Z.of_nat body_nconsts))]
    (out_avals body_jaxpr).

Definition qfor (body_jaxpr : jaxpr) (body_nconsts : nat)
    (inputs : list val) : M (list val) :=
  Primitive_bind qfor_p inputs [body_jaxpr]
    [("body_nconsts", PyInt (Z.of_nat body_nconsts))]
    (out_avals body_jaxpr).

(** [tree_unflatten(tree, flat)] inside the monad. *)
Definition unflatten_or_raise {A} (t : treedef) (flat : list A)
  : M (pytree A) :=
  match tree_unflatten t flat with
  | Some r => ret r
  | None => raise (ValueError "Too few leaves for PyTreeDef")
  end.

(** [ret_vals, _ = tree_unflatten(tree, avals)], then
    [a, t = tree_flatten(ret_vals)] and [ctx.jax_tape.create_tracer(t, a)]:
    the tracers of the outputs that are not the register. *)
Definition tracers_for_non_qreg (ctx : QuantumTape) (tree : treedef)
    (avals : list aval) : M (pytree val) :=
  unflat <- unflatten_or_raise tree avals ;;
  match unflat with
  | PTuple [ret_vals; _] =>
      let '(a, t) := tree_flatten ret_vals in
      if has_jax_tape ctx then create_tracer t a
      else raise (AttributeError "object has no attribute 'jax_tape'")
  | _ => raise (ValueError "not enough values to unpack (expected 2)")
  end.

(** [args_and_qreg[-1]]. *)
Definition last_arg (args_and_qreg : list (pytree val)) : M (pytree val) :=
  match rev args_and_qreg with
  | q :: _ => ret q
  | [] => raise (IndexError "tuple index out of range")
  end.

(** ** Differentiation: [Function], [Grad] and [grad] *)

Module Function.

Record t : Type := mk { fn : callable }.

Definition __name__ (self : t) : string :=
  String.append "grad." (callable_name (fn self)).

Definition __call__ (self : t) : pyfun :=
  fun args =>
    jaxpr_ <- make_jaxpr (callable_call (fn self)) args ;;
    outs <- func_bind jaxpr_ (leaves (PTuple args)) (__name__ self) ;;
    ret (PSeq (map PLeaf outs)).

(** The [Function] object seen as a callable; it is not a [QNode]. *)
Definition as_callable (self : t) : callable :=
  mkCallable (__name__ self) false (__call__ self).

End Function.

Module Grad.

Record t : Type := mk {
  fn : callable;
  method : string;
  h : pyobj;
  argnum : pyobj
}.

Definition __name__ (self : t) : string := callable_name (fn self).

Definition msg_higher_order : string :=
  "Only finite difference can compute higher order derivatives.".

Definition msg_not_well_defined : string := "Grad is not well defined".

Definition msg_not_a_function : string :=
  "Attempting to differentiate something other than a function".

Definition __init__ (fn : callable) (method : string) (h argnum : pyobj)
  : result t :=
  if negb (String.eqb method "fd") then
    if is_QNode fn then Ok (mk fn method h argnum)
    else Raise (AssertionError msg_higher_order)
  else Ok (mk fn method h argnum).

Definition __call__ (self : t) : pyfun :=
  fun args =>
    jaxpr_ <- make_jaxpr (callable_call (fn self)) args ;;
    assert (Nat.eqb (List.length (eqns jaxpr_)) 1) msg_not_well_defined ;;;
    assert (match eqns jaxpr_ with
            | e :: _ => primitive_eqb (eqn_primitive e) func_p
            | [] => false
            end) msg_not_a_function ;;;
    outs <- grad_bind (leaves (PTuple args)) jaxpr_ (__name__ self)
                      (method self) (h self) (argnum self) ;;
    ret (PSeq (map PLeaf outs)).

(** The [Grad] object seen as a callable; it is not a [QNode]. *)
Definition as_callable (self : t) : callable :=
  mkCallable (__name__ self) false (__call__ self).

End Grad.

Definition msg_invalid_method : string := "invalid differentiation method".

Definition msg_invalid_h : string := "invalid h value".

(** [1e-7]. *)
Definition default_h : pyobj := PyFloat 1 (-7).

(** [grad(f, *, method=None, h=None, argnum=None)]; an argument left out
    is [None]. *)
Definition grad (f : callable) (method : option string) (h argnum : pyobj)
  : result Grad.t :=
  let method := match method with None => "fd" | Some m => m end in
  if negb (existsb (String.eqb method) ["fd"; "ps"; "adj"])
  then Raise (AssertionError msg_invalid_method)
  else
    let h := if String.eqb method "fd" && is_None h then default_h else h in
    if negb (is_None h || is_Number h)
    then Raise (AssertionError msg_invalid_h)
    else
      let argnum :=
        if is_None argnum then PyList [PyInt 0]
        else if is_int argnum then PyList [argnum]
        else argnum in
      if is_QNode f then Grad.__init__ f method h argnum
      else Grad.__init__ (Function.as_callable (Function.mk f))
                         method h argnum.

(** ** Conditionals *)

Module CondCallable.

Record t : Type := mk {
  pred : val;
  true_fn : pyfunction;
  false_fn : pyfunction
}.

Definition __init__ (pred : val) (true_fn : pyfunction) : t :=
  mk pred true_fn lambda_None.

Definition msg_false_args : string :=
  "conditional 'False' function is not allowed to have any arguments".

Definition msg_true_args : string :=
  "conditional 'True' function is not allowed to have any arguments".

Definition msg_return_types : string :=
  "Conditional branches require the same return type".

Definition msg_not_tracing : string :=
  "Must use 'cond' inside tracing context.".

Definition otherwise (self : t) (false_fn : pyfunction) : result t :=
  if Nat.eqb (co_argcount false_fn) 0
  then Ok (mk (pred self) (true_fn self) false_fn)
  else Raise (AssertionError msg_false_args).

Definition check_branches_return_types (true_jaxpr false_jaxpr : jaxpr)
  : result unit :=
  if negb (avals_eqb (but_last (out_avals true_jaxpr))
                     (but_last (out_avals false_jaxpr)))
  then Raise (TypeError msg_return_types)
  else Ok tt.

Definition new_true_fn (self : t) : pyfun :=
  fun args =>
    match args with
    | [qreg] => run_on_tape (call (true_fn self) []) qreg is_not_None
    | _ => raise (TypeError "new_true_fn() takes 1 positional argument")
    end.

Definition new_false_fn (self : t) : pyfun :=
  fun args =>
    match args with
    | [qreg] => run_on_tape (call (false_fn self) []) qreg is_not_None
    | _ => raise (TypeError "new_false_fn() takes 1 positional argument")
    end.

Definition call_with_quantum_ctx (self : t) (ctx : QuantumTape)
  : M (pytree val) :=
  let '(args, args_tree) := tree_flatten (PTuple [PLeaf Qreg]) in
  let args_avals := map _abstractify args in
  '(jaxprs, consts, out_trees) <-
     _initial_style_jaxprs_with_common_consts
       (new_true_fn self) (new_false_fn self) args_tree args_avals ;;
  let '(true_jaxpr, false_jaxpr) := jaxprs in
  lift (check_branches_return_types true_jaxpr false_jaxpr) ;;;
  queue (Cond (pred self) consts true_jaxpr false_jaxpr args_tree out_trees) ;;;
  tracers_for_non_qreg ctx (nth 0 out_trees TNone) (out_avals true_jaxpr).

Definition call_with_classical_ctx (self : t) : M (pytree val) :=
  let '(args, args_tree) := tree_flatten (@PSeq val []) in
  let args_avals := map _abstractify args in
  '(jaxprs, consts, out_trees) <-
     _initial_style_jaxprs_with_common_consts
       (call (true_fn self)) (call (false_fn self)) args_tree args_avals ;;
  let '(true_jaxpr, false_jaxpr) := jaxprs in
  lift (check_branches_return_types true_jaxpr false_jaxpr) ;;;
  let inputs := pred self :: consts in
  ret_tree_flat <- qcond true_jaxpr false_jaxpr inputs ;;
  unflatten_or_raise (nth 0 out_trees TNone) ret_tree_flat.

Definition __call__ (self : t) : M (pytree val) :=
  check_is_tracing msg_not_tracing ;;;
  ctx <- active_context ;;
  match ctx with
  | None => call_with_classical_ctx self
  | Some c => call_with_quantum_ctx self c
  end.

End CondCallable.

(** [cond(pred)], the decorator applied to the 'True' branch. *)
Definition cond (pred : val) (true_fn : pyfunction) : result CondCallable.t :=
  if Nat.eqb (co_argcount true_fn) 0
  then Ok (CondCallable.__init__ pred true_fn)
  else Raise (AssertionError CondCallable.msg_true_args).

(** ** While loops *)

Module WhileCallable.

Record t : Type := mk {
  cond_fn : pyfun;
  body_fn : pyfun
}.

Definition msg_pytree : string :=
  "cond_fun must return a boolean scalar, but got pytree".

Definition msg_output_type : string :=
  "cond_fun must return a boolean scalar, but got output type(s)".

Definition msg_not_tracing : string :=
  "Must use 'while_loop' inside tracing context.".

(** [isinstance(pred_aval, ShapedArray)] and
    [pred_aval.strip_weak_type().strip_named_shape() ==
     ShapedArray((), jnp.bool_)]. *)
Definition is_boolean_scalar (pred_aval : aval) : bool :=
  match pred_aval with
  | Shaped a =>
      if ShapedArray_eq_dec (strip_named_shape (strip_weak_type a))
                            bool_scalar
      then true else false
  | _ => false
  end.

Definition _create_jaxpr (init_val : pytree val) (new_cond new_body : pyfun)
  : M (jaxpr * jaxpr * list val * list val * treedef) :=
  let '(init_vals, in_tree) := tree_flatten init_val in
  let init_avals := map _abstractify init_vals in
  '(cond_jaxpr, cond_consts, cond_tree) <-
     _initial_style_jaxpr new_cond in_tree init_avals ;;
  '(body_jaxpr, body_consts, body_tree) <-
     _initial_style_jaxpr new_body in_tree init_avals ;;
  if negb (treedef_is_leaf cond_tree)
     || negb (Nat.eqb (List.length (out_avals cond_jaxpr)) 1)
  then raise (TypeError msg_pytree)
  else
    match out_avals cond_jaxpr with
    | pred_aval :: _ =>
        if negb (is_boolean_scalar pred_aval)
        then raise (TypeError msg_output_type)
        else ret (body_jaxpr, cond_jaxpr, cond_consts, body_consts, body_tree)
    | [] => raise (IndexError "list index out of range")
    end.

Definition new_cond (self : t) : pyfun :=
  fun args_and_qreg =>
    let args := but_last args_and_qreg in
    cond_fn self args.

Definition new_body (self : t) : pyfun :=
  fun args_and_qreg =>
    let args := but_last args_and_qreg in
    qreg <- last_arg args_and_qreg ;;
    run_on_tape (body_fn self args) qreg (fun _ => true).

Definition call_with_quantum_ctx (self : t) (ctx : QuantumTape)
    (args : list (pytree val)) : M (pytree val) :=
  '(body_jaxpr, cond_jaxpr, cond_consts, body_consts, body_tree) <-
     _create_jaxpr (PTuple (args ++ [PLeaf Qreg]))
                   (new_cond self) (new_body self) ;;
  let flat_init_vals_no_qubits := fst (tree_flatten (PTuple args)) in
  queue (WhileLoop flat_init_vals_no_qubits body_jaxpr cond_jaxpr
                   cond_consts body_consts body_tree) ;;;
  tracers_for_non_qreg ctx body_tree (out_avals body_jaxpr).

Definition call_with_classical_ctx (self : t) (args : list (pytree val))
  : M (pytree val) :=
  '(body_jaxpr, cond_jaxpr, cond_consts, body_consts, body_tree) <-
     _create_jaxpr (PTuple args) (cond_fn self) (body_fn self) ;;
  let flat_init_vals_no_qubits := fst (tree_flatten (PTuple args)) in
  let inputs := cond_consts ++ body_consts ++ flat_init_vals_no_qubits in
  ret_tree_flat <-
    qwhile cond_jaxpr body_jaxpr (List.length cond_consts)
           (List.length body_consts) inputs ;;
  unflatten_or_raise body_tree ret_tree_flat.

Definition __call__ (self : t) (args : list (pytree val)) : M (pytree val) :=
  check_is_tracing msg_not_tracing ;;;
  ctx <- active_context ;;
  match ctx with
  | Some c => call_with_quantum_ctx self c args
  | None => call_with_classical_ctx self args
  end.

End WhileCallable.

Definition while_loop (cond_fn body_fn : pyfun) : WhileCallable.t :=
  WhileCallable.mk cond_fn body_fn.

(** ** Counted loops *)

Module ForLoopCallable.

Record t : Type := mk {
  lower_bound : val;
  upper_bound : val;
  step : val;
  body_fn : pyfun
}.

Definition msg_not_tracing : string :=
  "Must use 'for_loop' inside tracing context.".

Definition _create_jaxpr (init_val : pytree val) (new_body : pyfun)
  : M (jaxpr * list val * treedef) :=
  let '(init_vals, in_tree) := tree_flatten init_val in
  let init_avals := map _abstractify init_vals in
  _initial_style_jaxpr new_body in_tree init_avals.

Definition new_body (self : t) : pyfun :=
  fun args_and_qreg =>
    let args := but_last args_and_qreg in
    qreg <- last_arg args_and_qreg ;;
    run_on_tape (body_fn self args) qreg is_not_None.

Definition call_with_quantum_ctx (self : t) (ctx : QuantumTape)
    (args : list (pytree val)) : M (pytree val) :=
  let args := PLeaf (lower_bound self) :: args in
  '(body_jaxpr, body_consts, body_tree) <-
     _create_jaxpr (PTuple (args ++ [PLeaf Qreg])) (new_body self) ;;
  let flat_init_vals_no_qubits := fst (tree_flatten (PTuple args)) in
  queue (ForLoop [lower_bound self; upper_bound self; step self]
                 flat_init_vals_no_qubits body_jaxpr body_consts body_tree) ;;;
  tracers_for_non_qreg ctx body_tree (out_avals body_jaxpr).

Definition call_with_classical_ctx (self : t) (args : list (pytree val))
  : M (pytree val) :=
  let args := PLeaf (lower_bound self) :: args in
  '(body_jaxpr, body_consts, body_tree) <-
     _create_jaxpr (PTuple args) (body_fn self) ;;
  let flat_init_vals_no_qubits := fst (tree_flatten (PTuple args)) in
  let inputs :=
    [lower_bound self; upper_bound self; step self]
      ++ body_consts ++ flat_init_vals_no_qubits in
  ret_tree_flat <- qfor body_jaxpr (List.length body_consts) inputs ;;
  unflatten_or_raise body_tree ret_tree_flat.

Definition __call__ (self : t) (args : list (pytree val)) : M (pytree val) :=
  check_is_tracing msg_not_tracing ;;;
  ctx <- active_context ;;
  match ctx with
  | None => call_with_classical_ctx self args
  | Some c => call_with_quantum_ctx self c args
  end.

End ForLoopCallable.

Definition for_loop (lower_bound upper_bound step : val) (body_fn : pyfun)
  : ForLoopCallable.t :=
  ForLoopCallable.mk lower_bound upper_bound step body_fn.

(** ** Mid-circuit measurement *)

Definition msg_wrong_wires : string :=
  "MidCircuitMeasure: wrong number of wires.".

Definition msg_measure_not_jitted : string :=
  "measure can only be used when it jitted mode".

(** [MidCircuitMeasure(measurement_id, wires=wires)]: the constructor of
    [Operation] checks the wires against [num_wires = 1], then queues the
    new operation into the active context. *)
Definition new_MidCircuitMeasure (measurement_id : string) (wires : list nat)
  : M operation :=
  if Nat.eqb (List.length wires) 1
  then queue (MidCircuitMeasure measurement_id wires) ;;;
       ret (MidCircuitMeasure measurement_id wires)
  else raise (ValueError msg_wrong_wires).

Definition measure (wires : list nat) : M (pytree val) :=
  u <- uuid4 ;;
  let measurement_id := substring 0 8 (str_uuid u) in
  new_MidCircuitMeasure measurement_id wires ;;;
  ctx <- active_context ;;
  match ctx with
  | Some c =>
      if has_jax_tape c
      then let '(a, t) := tree_flatten (PLeaf (_abstractify (VBool true))) in
           create_tracer t a
      else raise (ValueError msg_measure_not_jitted)
  | None => raise (ValueError msg_measure_not_jitted)
  end.

(** ** Quantum functions *)

(** A PennyLane device as [QFunc] reads it: its [short_name], [shots] and
    [wires]. *)
Record Device : Type := mkDevice {
  dev_short_name : string;
  dev_shots : pyobj;
  dev_wires : pyobj
}.

(** [QJITDevice(shots=shots, wires=wires)]. *)
Definition new_QJITDevice (shots wires : pyobj) : Device :=
  mkDevice QJITDevice.short_name shots wires.

Module QFunc.

(** [isinstance_QNode] is [isinstance(self, qml.QNode)]: the call method
    of this class also serves the quantum nodes of PennyLane. *)
Record t : Type := mk {
  func_name : string;
  func : pyfun;
  device : Device;
  isinstance_QNode : bool
}.

Definition msg_only_lightning : string :=
  "Only the lightning.qubit device is supported for compilation at the moment.".

Section Call.

(** [catalyst.jax_tracer.get_traceable_fn(func, device)], which is not
    part of the sources: the function that records [func] on a tape of
    the device and translates the tape. *)
Variable get_traceable_fn : pyfun -> Device -> pyfun.

Definition __call__ (self : t) : pyfun :=
  fun args =>
    dev <-
      (if isinstance_QNode self then
         if negb (String.eqb (dev_short_name (device self)) "lightning.qubit")
         then raise (TypeError msg_only_lightning)
         else ret (new_QJITDevice (dev_shots (device self))
                                  (dev_wires (device self)))
       else ret (device self)) ;;
    let traceable_fn := get_traceable_fn (func self) dev in
    jaxpr_ <- make_jaxpr traceable_fn args ;;
    retval <- func_bind jaxpr_ (leaves (PTuple args)) (func_name self) ;;
    ret (PSeq (map PLeaf retval)).

(** The quantum function seen as a callable handed to [grad]. *)
Definition as_callable (self : t) : callable :=
  mkCallable (func_name self) (isinstance_QNode self) (__call__ self).

End Call.

End QFunc.

(** [qfunc(num_wires, *, shots=1000, device=None)(fn)]; an argument left
    out is [None]. *)
Definition qfunc (num_wires : pyobj) (shots : option pyobj)
    (dev : option Device) (fn_name : string) (fn : pyfun) : QFunc.t :=
  let shots := match shots with None => PyInt 1000 | Some n => n end in
  let dev :=
    match dev with
    | None => new_QJITDevice shots num_wires
    | Some d => d
    end in
  QFunc.mk fn_name fn dev false.

(** ** The error taxonomy of the design *)

(** The names section 7 of the design document gives to the failures. *)
Inductive spec_error : Type :=
| UsageError
| TypeMismatchError
| InternalConsistencyError
| ConfigurationError
| DeviceVocabularyViolation.

Definition one_of (m : string) (l : list string) : bool :=
  existsb (String.eqb m) l.

(** The name the design document gives to each exception of this file:
    a construct used outside a tracing or quantum context, a branch
    function with arguments or a foreign measurement is a [UsageError];
    a disagreement of branch outputs or a predicate that is not a boolean
    scalar is a [TypeMismatchError]; a failed assertion of [Grad.__call__]
    is an [InternalConsistencyError], one of [grad] or [Grad.__init__] a
    [ConfigurationError]. *)
Definition taxonomy (e : exn) : option spec_error :=
  match e with
  | TypeError m =>
      if String.eqb m QJITDevice.msg_foreign_measure then Some UsageError
      else if one_of m [CondCallable.msg_return_types;
                        WhileCallable.msg_pytree;
                        WhileCallable.msg_output_type]
           then Some TypeMismatchError
           else None
  | ValueError m =>
      if one_of m [msg_measure_not_jitted; CondCallable.msg_not_tracing;
                   WhileCallable.msg_not_tracing;
                   ForLoopCallable.msg_not_tracing]
      then Some UsageError else None
  | AssertionError m =>
      if one_of m [CondCallable.msg_true_args; CondCallable.msg_false_args]
      then Some UsageError
      else if one_of m [msg_invalid_method; msg_invalid_h;
                        Grad.msg_higher_order]
           then Some ConfigurationError
           else if one_of m [Grad.msg_not_well_defined;
                             Grad.msg_not_a_function]
                then Some InternalConsistencyError
                else None
  | DeviceError _ => Some DeviceVocabularyViolation
  | _ => None
  end.

(** ** Sample programs *)

Definition sample_uuids (n : nat) : N :=
  (N.of_nat n * 1234567891011121314151617181920212223
   + 98765432198765432198765432198765432100)%N.

(** A tracing context with no quantum recording context. *)
Definition classical_state : state :=
  mkState true [] [] 0 sample_uuids 0.

(** The same, inside the tape of a quantum function. *)
Definition quantum_state : state :=
  set_contexts [mkTape true [] []] classical_state.

(** The same, inside a recording context without tracing support. *)
Definition plain_queue_state : state :=
  set_contexts [mkTape false [] []] classical_state.

(** [lambda: 1], [lambda: 2] and [lambda: 1.5]. *)
Definition lambda_1 : pyfunction :=
  mkFun 0 (fun _ => ret (PLeaf (VInt 1))).
Definition lambda_2 : pyfunction :=
  mkFun 0 (fun _ => ret (PLeaf (VInt 2))).
Definition lambda_1_5 : pyfunction :=
  mkFun 0 (fun _ => ret (PLeaf (VFloat 15 (-1)))).

(** [lambda x: x]. *)
Definition lambda_x_x : pyfunction :=
  mkFun 1 (fun args => ret (hd PNone args)).

(** [lambda: measure(wires=0)]. *)
Definition lambda_measure : pyfunction :=
  mkFun 0 (fun _ => measure [0]).

(** [lambda i, acc: acc + i]. *)
Definition lambda_i_acc : pyfun :=
  fun args =>
    match args with
    | [i; acc] =>
        outs <- Primitive_bind (other_p "add") (leaves acc ++ leaves i) [] []
                               [scalar int64 true] ;;
        ret (PLeaf (hd (VInt 0) outs))
    | _ => raise (TypeError "<lambda>() takes 2 positional arguments")
    end.

(** [lambda x: x < 3] and [lambda x: x + 1]. *)
Definition lambda_x_lt_3 : pyfun :=
  fun args =>
    match args with
    | [x] =>
        outs <- Primitive_bind (other_p "lt") (leaves x ++ [VInt 3]) [] []
                               [scalar bool_ false] ;;
        ret (PLeaf (hd (VBool false) outs))
    | _ => raise (TypeError "<lambda>() takes 1 positional argument")
    end.

Definition lambda_x_plus_1 : pyfun :=
  fun args =>
    match args with
    | [x] =>
        outs <- Primitive_bind (other_p "add") (leaves x ++ [VInt 1]) [] []
                               [scalar int64 true] ;;
        ret (PLeaf (hd (VInt 0) outs))
    | _ => raise (TypeError "<lambda>() takes 1 positional argument")
    end.

(** A plain Python function [f(x) = x * x]. *)
Definition square : callable :=
  mkCallable "square" false
    (fun args =>
       outs <- Primitive_bind (other_p "mul")
                 (leaves (PTuple args) ++ leaves (PTuple args)) [] []
                 [scalar float64 true] ;;
       ret (PLeaf (hd (VInt 0) outs))).

(** [for_loop(7, 9, 1)(lambda i, acc: acc + i)]. *)
Definition sample_for_loop : ForLoopCallable.t :=
  for_loop (VInt 7) (VInt 9) (VInt 1) lambda_i_acc.

(** [while_loop(lambda x: x < 3)(lambda x: x + 1)]. *)
Definition sample_while_loop : WhileCallable.t :=
  while_loop lambda_x_lt_3 lambda_x_plus_1.

(** [grad(square)], with every keyword left out. *)
Definition sample_grad : Grad.t :=
  Grad.mk (Function.as_callable (Function.mk square)) "fd" default_h
          (PyList [PyInt 0]).

(** A circuit of one supported gate that measures an observable outside
    the declared vocabulary. *)
Definition sample_circuit : QuantumTape :=
  mkTape true [Gate "PauliX" PlainOperation [] [0] None]
         [mkObservable "Projector" [0]].


(** [while_loop(lambda x: x + 1)(lambda x: x + 1)], whose predicate
    returns an integer. *)
Definition integer_predicate_loop : WhileCallable.t :=
  while_loop lambda_x_plus_1 lambda_x_plus_1.

(** The reading of "the initial loop-carried values of the node never
    include the iteration index": the values the node carries are the
    flattened arguments of the invocation, and nothing else. *)
Definition initial_values_exclude_index (node : operation)
    (args : list (pytree val)) : Prop :=
  match node with
  | ForLoop _ iter_args _ _ _ => iter_args = leaves (PTuple args)
  | _ => False
  end.


(** The predicate sub-program of an invocation fails the check of
    [_create_jaxpr]: it has no output or several, or one that is not a
    boolean scalar. *)
Definition bad_predicate (cj : jaxpr) : Prop :=
  List.length (out_avals cj) <> 1 \/
  exists p, out_avals cj = [p] /\ WhileCallable.is_boolean_scalar p = false.

(** The identifier [measure] gives to the measurement it builds in state
    [s]: the first 8 characters of the next UUID of the source. *)
Definition next_measurement_id (s : state) : string :=
  substring 0 8
    (str_uuid (N.modulo (uuid_source s (uuid_drawn s)) (2 ^ 128))).

(** [lambda x: (x < 3,)], a predicate that returns a tuple of one
    boolean. *)
Definition lambda_x_lt_3_tuple : pyfun :=
  fun args =>
    out <- lambda_x_lt_3 args ;;
    ret (PTuple [out]).

(** [while_loop(lambda x: (x < 3,))(lambda x: x + 1)]. *)
Definition tuple_predicate_loop : WhileCallable.t :=
  while_loop lambda_x_lt_3_tuple lambda_x_plus_1.

(** A quantum node on [default.qubit], and one on [lightning.qubit],
    that return their argument. *)
Definition default_qubit_node : QFunc.t :=
  QFunc.mk "circuit" (fun args => ret (PTuple args))
           (mkDevice "default.qubit" PyNone (PyInt 1)) true.

Definition lightning_node : QFunc.t :=
  QFunc.mk "circuit" (fun args => ret (PTuple args))
           (mkDevice "lightning.qubit" PyNone (PyInt 1)) true.

(** A stand-in for [get_traceable_fn] that traces the function as it
    is. *)
Definition plain_traceable_fn (f : pyfun) (d : Device) : pyfun := f.

(** The operations this file declares. *)
Definition is_catalyst_operation (op : operation) : bool :=
  match op with
  | Gate _ _ _ _ _ => false
  | _ => true
  end.

(** A callable whose every call, on any arguments and from any state,
    returns after binding exactly one function-call operation in the
    program being captured. *)
Definition binds_one_function_call (f : pyfun) : Prop :=
  forall args s, exists out s' e,
    f args s = (Ok out, s') /\
    trace s' = trace s ++ [e] /\
    eqn_primitive e = func_p.

(** A callable that can be captured on any arguments, from any state. *)
Definition always_captured (f : pyfun) : Prop :=
  forall args s, exists j s', make_jaxpr f args s = (Ok j, s').

(** The parameters of a Python function definition, by kind: the
    positional parameters (positional-only or not, with a default or
    not), a variadic [*args], the keyword-only parameters and a variadic
    [**kwargs]. *)
Record signature : Type := mkSignature {
  positional : nat;
  var_positional : bool;
  keyword_only : nat;
  var_keyword : bool
}.

(** The number of parameters of a definition, of every kind. *)
Definition parameter_count (sig : signature) : nat :=
  positional sig + (if var_positional sig then 1 else 0)
  + keyword_only sig + (if var_keyword sig then 1 else 0).

(** The function object of a definition: the [co_argcount] of its code
    object counts the positional parameters only, as CPython defines
    it. *)
Definition def_function (sig : signature) (body : pyfun) : pyfunction :=
  mkFun (positional sig) body.

(** [lambda *args: None] and [lambda *, flag=True: None]. *)
Definition lambda_star_args : pyfunction :=
  def_function (mkSignature 0 true 0 false) (fun _ => ret PNone).

Definition lambda_keyword_only : pyfunction :=
  def_function (mkSignature 0 false 1 false) (fun _ => ret PNone).

(** [lambda x: x.foo], which raises when it is traced. *)
Definition lambda_x_foo : pyfun :=
  fun _ => raise (AttributeError "object has no attribute 'foo'").

(** [while_loop(lambda x: x + 1)(lambda x: x.foo)]: the predicate
    returns an integer and the body cannot be captured. *)
Definition failing_body_loop : WhileCallable.t :=
  while_loop lambda_x_plus_1 lambda_x_foo.


(** ** Properties *)

(** [evaluate e H]: the equation [H] of [e] with its value. *)
Ltac evaluate e H :=
  let v := eval vm_compute in e in
  assert (H : e = v) by (vm_compute; reflexivity).

(** *** The monad *)

Lemma mbind_run {A B} (m : M A) (k : A -> M B) (s : state) :
  mbind m k s =
  match m s with
  | (Ok a, s') => k a s'
  | (Raise e, s') => (Raise e, s')
  end.
Proof. reflexivity. Qed.

Lemma mbind_Ok {A B} (m : M A) (k : A -> M B) s a s' :
  m s = (Ok a, s') -> mbind m k s = k a s'.
Proof. intros H. rewrite mbind_run, H. reflexivity. Qed.

Lemma mbind_Raise {A B} (m : M A) (k : A -> M B) s e s' :
  m s = (Raise e, s') -> mbind m k s = (Raise e, s').
Proof. intros H. rewrite mbind_run, H. reflexivity. Qed.

Lemma new_tracers_frame l :
  forall s, exists vs,
    new_tracers l s =
      (Ok vs, mkState (is_tracing s) (trace s) (active_contexts s)
                      (List.length l + next_tracer s)
                      (uuid_source s) (uuid_drawn s)).
Proof.
  induction l as [|a l IH]; intros s; simpl.
  - exists []. destruct s; reflexivity.
  - destruct (IH (mkState (is_tracing s) (trace s) (active_contexts s)
                          (S (next_tracer s)) (uuid_source s) (uuid_drawn s)))
      as [vs Hvs].
    exists (Tracer (next_tracer s) a :: vs).
    unfold mbind, new_tracer at 1. rewrite Hvs. simpl.
    unfold ret. f_equal. f_equal. lia.
Qed.

Lemma Primitive_bind_trace p invars subs params ravals s :
  exists outs s',
    Primitive_bind p invars subs params ravals s = (Ok outs, s') /\
    trace s' = trace s ++ [Eqn p invars subs params outs] /\
    active_contexts s' = active_contexts s.
Proof.
  unfold Primitive_bind.
  destruct (new_tracers_frame ravals s) as [vs Hvs].
  exists vs. eexists. split.
  - rewrite (mbind_Ok _ _ _ _ _ Hvs). reflexivity.
  - split; reflexivity.
Qed.

Lemma unflatten_or_raise_state {A} t (flat : list A) s :
  snd (unflatten_or_raise t flat s) = s.
Proof.
  unfold unflatten_or_raise. destruct (tree_unflatten t flat); reflexivity.
Qed.

Lemma create_tracer_frame t a s :
  trace (snd (create_tracer t a s)) = trace s /\
  active_contexts (snd (create_tracer t a s)) = active_contexts s.
Proof.
  unfold create_tracer.
  destruct (new_tracers_frame a s) as [vs Hvs].
  rewrite (mbind_Ok _ _ _ _ _ Hvs).
  destruct (tree_unflatten t vs); split; reflexivity.
Qed.

Lemma tracers_for_non_qreg_frame ctx t a s :
  trace (snd (tracers_for_non_qreg ctx t a s)) = trace s /\
  active_contexts (snd (tracers_for_non_qreg ctx t a s)) = active_contexts s.
Proof.
  unfold tracers_for_non_qreg, unflatten_or_raise. rewrite mbind_run.
  destruct (tree_unflatten t a) as [u|]; simpl; [|split; reflexivity].
  destruct u as [| |l|]; try (split; reflexivity).
  destruct l as [|r [|q [|x l]]]; try (split; reflexivity).
  unfold tree_flatten. destruct (has_jax_tape ctx); [|split; reflexivity].
  apply create_tracer_frame.
Qed.

(** *** The capture procedure *)

Lemma initial_style_jaxpr_trace f in_tree avals s :
  trace (snd (_initial_style_jaxpr f in_tree avals s)) = trace s.
Proof.
  unfold _initial_style_jaxpr.
  match goal with |- context [?m (set_trace [] s)] =>
    destruct (m (set_trace [] s)) as [[ans|e] s'] end;
    reflexivity.
Qed.

Lemma initial_style_jaxpr_in_avals f in_tree avals s j c t s' :
  _initial_style_jaxpr f in_tree avals s = (Ok (j, c, t), s') ->
  in_avals j = avals.
Proof.
  unfold _initial_style_jaxpr.
  match goal with |- context [?m (set_trace [] s)] =>
    destruct (m (set_trace [] s)) as [[ans|e] s0] end;
    intros H; inversion H; reflexivity.
Qed.

(** *** Conditionals: construction *)

(** On function objects: [cond] and [otherwise] refuse, by an assertion,
    a function whose code object has a [co_argcount] other than 0, so no
    conditional that could be invoked is built; they accept one whose
    [co_argcount] is 0. *)
Theorem cond_branches_take_no_argument :
  forall (pred : val) (self : CondCallable.t) (f : pyfunction),
    (co_argcount f <> 0 ->
     cond pred f = Raise (AssertionError CondCallable.msg_true_args) /\
     CondCallable.otherwise self f
       = Raise (AssertionError CondCallable.msg_false_args)) /\
    (co_argcount f = 0 ->
     cond pred f = Ok (CondCallable.mk pred f lambda_None) /\
     CondCallable.otherwise self f
       = Ok (CondCallable.mk (CondCallable.pred self)
                             (CondCallable.true_fn self) f)) /\
    taxonomy (AssertionError CondCallable.msg_true_args) = Some UsageError /\
    taxonomy (AssertionError CondCallable.msg_false_args) = Some UsageError.
Proof.
  intros pred self f. unfold cond, CondCallable.otherwise.
  split; [|split; [|split; reflexivity]]; intros H.
  - apply Nat.eqb_neq in H. rewrite H. split; reflexivity.
  - rewrite H. split; reflexivity.
Qed.

Lemma cond_branches_take_no_argument_witness :
  co_argcount lambda_x_x <> 0 /\
  cond (VBool true) lambda_x_x
    = Raise (AssertionError CondCallable.msg_true_args) /\
  CondCallable.otherwise (CondCallable.__init__ (VBool true) lambda_1)
                         lambda_x_x
    = Raise (AssertionError CondCallable.msg_false_args).
Proof.
  assert (H : co_argcount lambda_x_x <> 0) by discriminate.
  split; [exact H|].
  exact (proj1 (cond_branches_take_no_argument
                  (VBool true)
                  (CondCallable.__init__ (VBool true) lambda_1)
                  lambda_x_x) H).
Defined.

(** Counterexample to C7 as stated: a branch function with one parameter
    that is variadic, [lambda *args: None], or keyword-only,
    [lambda *, flag=True: None], is accepted by [cond] and by
    [otherwise]. *)
Lemma cond_accepts_variadic_branch :
  1 <= parameter_count (mkSignature 0 true 0 false) /\
  1 <= parameter_count (mkSignature 0 false 1 false) /\
  cond (VBool true) lambda_star_args
    = Ok (CondCallable.mk (VBool true) lambda_star_args lambda_None) /\
  cond (VBool true) lambda_keyword_only
    = Ok (CondCallable.mk (VBool true) lambda_keyword_only lambda_None) /\
  CondCallable.otherwise (CondCallable.__init__ (VBool true) lambda_1)
                         lambda_star_args
    = Ok (CondCallable.mk (VBool true) lambda_1 lambda_star_args) /\
  CondCallable.otherwise (CondCallable.__init__ (VBool true) lambda_1)
                         lambda_keyword_only
    = Ok (CondCallable.mk (VBool true) lambda_1 lambda_keyword_only).
Proof.
  split; [vm_compute; lia|]. split; [vm_compute; lia|].
  repeat split.
Qed.

(** C7, amended: the 'True' function given to [cond] and the 'False'
    function given to [otherwise] must have no positional parameter: a
    definition with one positional parameter or more is refused by the
    assertion of the decorator (the [UsageError] of the design), at
    decoration time, so no conditional that could be invoked is built; a
    definition with no positional parameter is accepted, whatever its
    variadic and keyword-only parameters are. *)
Theorem cond_branches_take_no_positional_parameter :
  forall (pred : val) (self : CondCallable.t) (sig : signature)
         (body : pyfun),
    (positional sig <> 0 ->
     cond pred (def_function sig body)
       = Raise (AssertionError CondCallable.msg_true_args) /\
     CondCallable.otherwise self (def_function sig body)
       = Raise (AssertionError CondCallable.msg_false_args)) /\
    (positional sig = 0 ->
     cond pred (def_function sig body)
       = Ok (CondCallable.mk pred (def_function sig body) lambda_None) /\
     CondCallable.otherwise self (def_function sig body)
       = Ok (CondCallable.mk (CondCallable.pred self)
                             (CondCallable.true_fn self)
                             (def_function sig body))) /\
    taxonomy (AssertionError CondCallable.msg_true_args) = Some UsageError /\
    taxonomy (AssertionError CondCallable.msg_false_args) = Some UsageError.
Proof.
  intros pred self sig body.
  unfold cond, CondCallable.otherwise, def_function. cbn [co_argcount].
  split; [|split; [|split; reflexivity]]; intros H.
  - apply Nat.eqb_neq in H. rewrite H. split; reflexivity.
  - rewrite H. split; reflexivity.
Qed.

Lemma cond_branches_take_no_positional_parameter_witness :
  positional (mkSignature 1 false 0 false) <> 0 /\
  cond (VBool true)
       (def_function (mkSignature 1 false 0 false)
                     (fun args => ret (hd PNone args)))
    = Raise (AssertionError CondCallable.msg_true_args) /\
  positional (mkSignature 0 true 2 true) = 0 /\
  cond (VBool true)
       (def_function (mkSignature 0 true 2 true) (fun _ => ret PNone))
    = Ok (CondCallable.mk (VBool true)
            (def_function (mkSignature 0 true 2 true) (fun _ => ret PNone))
            lambda_None).
Proof.
  assert (H1 : positional (mkSignature 1 false 0 false) <> 0)
    by discriminate.
  assert (H0 : positional (mkSignature 0 true 2 true) = 0) by reflexivity.
  split; [exact H1|]. split.
  - exact (proj1 (proj1 (cond_branches_take_no_positional_parameter
                           (VBool true)
                           (CondCallable.__init__ (VBool true) lambda_1)
                           (mkSignature 1 false 0 false)
                           (fun args => ret (hd PNone args))) H1)).
  - split; [exact H0|].
    exact (proj1 (proj1 (proj2
             (cond_branches_take_no_positional_parameter
                (VBool true)
                (CondCallable.__init__ (VBool true) lambda_1)
                (mkSignature 0 true 2 true) (fun _ => ret PNone))) H0)).
Defined.

(** *** Differentiation: construction *)

Lemma grad_argnum f m h a g :
  grad f m h a = Ok g ->
  Grad.argnum g =
    (if is_None a then PyList [PyInt 0]
     else if is_int a then PyList [a] else a).
Proof.
  unfold grad, Grad.__init__.
  repeat match goal with
         | |- context [if ?c then _ else _] => destruct c
         end; intros H; inversion H; reflexivity.
Qed.

(** C4: [grad] validates its configuration when the request is built, as
    a pure function of its arguments, with no tracing: with method ["ps"]
    a callable that is not a quantum node is refused by an assertion (the
    [ConfigurationError] of the design); with method ["fd"] and no step
    size the step size is [1e-7]; a step size that is not a number is
    refused; a method left out is ["fd"]; an argnum left out is [[0]] and
    an integer argnum [n] becomes [[n]]. *)
Theorem grad_validates_configuration :
  forall (f : callable),
    (is_QNode f = false ->
     (forall argnum,
        grad f (Some "ps") PyNone argnum
          = Raise (AssertionError Grad.msg_higher_order)) /\
     (forall h argnum, exists msg,
        grad f (Some "ps") h argnum = Raise (AssertionError msg) /\
        taxonomy (AssertionError msg) = Some ConfigurationError)) /\
    (forall argnum, exists g,
       grad f (Some "fd") PyNone argnum = Ok g /\
       Grad.method g = "fd" /\ Grad.h g = default_h) /\
    (forall argnum,
       grad f (Some "fd") (PyStr "x") argnum
         = Raise (AssertionError msg_invalid_h)) /\
    (forall m h argnum,
       is_None h = false -> is_Number h = false ->
       exists msg,
         grad f m h argnum = Raise (AssertionError msg) /\
         taxonomy (AssertionError msg) = Some ConfigurationError) /\
    (forall h argnum, grad f None h argnum = grad f (Some "fd") h argnum) /\
    (forall m h g,
       grad f m h PyNone = Ok g -> Grad.argnum g = PyList [PyInt 0]) /\
    (forall m h n g,
       grad f m h (PyInt n) = Ok g -> Grad.argnum g = PyList [PyInt n]).
Proof.
  intros f.
  split; [intros Hf; split
        |split; [|split; [|split; [|split; [|split]]]]].
  - intros argnum. unfold grad, Grad.__init__. simpl. rewrite Hf.
    destruct (is_None argnum), (is_int argnum); reflexivity.
  - intros h argnum. unfold grad, Grad.__init__. simpl. rewrite Hf.
    destruct (is_None h || is_Number h); simpl.
    + exists Grad.msg_higher_order. split; [|reflexivity].
      destruct (is_None argnum), (is_int argnum); reflexivity.
    + exists msg_invalid_h. split; reflexivity.
  - intros argnum. unfold grad, Grad.__init__. simpl.
    destruct (is_QNode f); eexists; repeat split.
  - intros argnum. reflexivity.
  - intros m h argnum Hn Hnum. unfold grad.
    destruct (negb (existsb _ _)).
    + exists msg_invalid_method. split; reflexivity.
    + rewrite Hn, Bool.andb_false_r, Hn, Hnum. simpl.
      exists msg_invalid_h. split; reflexivity.
  - reflexivity.
  - intros m h g H. apply grad_argnum in H. exact H.
  - intros m h n g H. apply grad_argnum in H. exact H.
Qed.

Lemma grad_validates_configuration_witness :
  is_QNode square = false /\
  grad square (Some "ps") PyNone PyNone
    = Raise (AssertionError Grad.msg_higher_order).
Proof.
  assert (H : is_QNode square = false) by reflexivity.
  split; [exact H|].
  exact (proj1 (proj1 (grad_validates_configuration square) H) PyNone).
Defined.

(** *** While loops *)

Lemma but_last_app {A} (l : list A) (x : A) : but_last (l ++ [x]) = l.
Proof. unfold but_last. apply removelast_last. Qed.

Lemma leaves_tuple_app {A} (l1 l2 : list (pytree A)) :
  leaves (PTuple (l1 ++ l2)) = leaves (PTuple l1) ++ leaves (PTuple l2).
Proof. simpl. apply flat_map_app. Qed.

Lemma WhileCallable_create_jaxpr_in_avals init_val nc nb s bj cj cc bc bt s' :
  WhileCallable._create_jaxpr init_val nc nb s
    = (Ok (bj, cj, cc, bc, bt), s') ->
  in_avals cj = map _abstractify (leaves init_val) /\
  in_avals bj = map _abstractify (leaves init_val).
Proof.
  unfold WhileCallable._create_jaxpr, tree_flatten.
  rewrite mbind_run.
  destruct (_initial_style_jaxpr nc _ _ s) as [[[[cj0 cc0] ct0]|e] s1] eqn:Hc;
    [|discriminate].
  rewrite mbind_run.
  destruct (_initial_style_jaxpr nb _ _ s1) as [[[[bj0 bc0] bt0]|e] s2] eqn:Hb;
    [|discriminate].
  apply initial_style_jaxpr_in_avals in Hc, Hb.
  destruct (negb (treedef_is_leaf ct0) || _); [discriminate|].
  destruct (out_avals cj0) as [|p r]; [discriminate|].
  destruct (negb (WhileCallable.is_boolean_scalar p)); [discriminate|].
  intros H. inversion H. subst. split; assumption.
Qed.

Lemma WhileCallable_create_jaxpr_run init_val nc nb s cj cc ct s1 bj bc bt s2 :
  _initial_style_jaxpr nc (tree_structure init_val)
    (map _abstractify (leaves init_val)) s = (Ok (cj, cc, ct), s1) ->
  _initial_style_jaxpr nb (tree_structure init_val)
    (map _abstractify (leaves init_val)) s1 = (Ok (bj, bc, bt), s2) ->
  WhileCallable._create_jaxpr init_val nc nb s =
    if negb (treedef_is_leaf ct)
       || negb (Nat.eqb (List.length (out_avals cj)) 1)
    then (Raise (TypeError WhileCallable.msg_pytree), s2)
    else match out_avals cj with
         | p :: _ =>
             if negb (WhileCallable.is_boolean_scalar p)
             then (Raise (TypeError WhileCallable.msg_output_type), s2)
             else (Ok (bj, cj, cc, bc, bt), s2)
         | [] => (Raise (IndexError "list index out of range"), s2)
         end.
Proof.
  intros Hc Hb. unfold WhileCallable._create_jaxpr, tree_flatten.
  rewrite (mbind_Ok _ _ _ _ _ Hc). cbv beta iota.
  rewrite (mbind_Ok _ _ _ _ _ Hb). cbv beta iota.
  destruct (negb (treedef_is_leaf ct) || _); [reflexivity|].
  destruct (out_avals cj) as [|p r]; [reflexivity|].
  destruct (negb (WhileCallable.is_boolean_scalar p)); reflexivity.
Qed.

Lemma is_boolean_scalar_true p :
  WhileCallable.is_boolean_scalar p = true ->
  exists a, p = Shaped a /\
            strip_named_shape (strip_weak_type a) = bool_scalar.
Proof.
  destruct p as [a| |]; unfold WhileCallable.is_boolean_scalar;
    try discriminate.
  destruct (ShapedArray_eq_dec (strip_named_shape (strip_weak_type a))
                               bool_scalar) as [E|]; [|discriminate].
  intros _. exists a. split; [reflexivity|exact E].
Qed.

Lemma WhileCallable_create_jaxpr_checked
      init_val nc nb s cj cc ct s1 bj bc bt s2 :
  _initial_style_jaxpr nc (tree_structure init_val)
    (map _abstractify (leaves init_val)) s = (Ok (cj, cc, ct), s1) ->
  _initial_style_jaxpr nb (tree_structure init_val)
    (map _abstractify (leaves init_val)) s1 = (Ok (bj, bc, bt), s2) ->
  let r := WhileCallable._create_jaxpr init_val nc nb s in
  snd r = s2 /\
  (forall x, fst r = Ok x ->
     exists a, out_avals cj = [Shaped a] /\
               strip_named_shape (strip_weak_type a) = bool_scalar) /\
  (bad_predicate cj ->
     exists msg, fst r = Raise (TypeError msg) /\
                 taxonomy (TypeError msg) = Some TypeMismatchError).
Proof.
  intros Hc Hb r. subst r. unfold bad_predicate.
  rewrite (WhileCallable_create_jaxpr_run _ _ _ _ _ _ _ _ _ _ _ _ Hc Hb).
  destruct (treedef_is_leaf ct); simpl.
  2:{ split; [reflexivity|]. split; [discriminate|].
      intros _. exists WhileCallable.msg_pytree. split; reflexivity. }
  destruct (out_avals cj) as [|p [|p' r]]; simpl.
  - split; [reflexivity|]. split; [discriminate|].
    intros _. exists WhileCallable.msg_pytree. split; reflexivity.
  - destruct (WhileCallable.is_boolean_scalar p) eqn:Hp; simpl.
    + split; [reflexivity|]. split.
      * intros x _. apply is_boolean_scalar_true in Hp.
        destruct Hp as [a [-> Ha]]. exists a. split; [reflexivity|exact Ha].
      * intros [Hlen|[p0 [Heq Hp0]]]; [exfalso; apply Hlen; reflexivity|].
        inversion Heq; subst. congruence.
    + split; [reflexivity|]. split; [discriminate|].
      intros _. exists WhileCallable.msg_output_type. split; reflexivity.
  - split; [reflexivity|]. split; [discriminate|].
    intros _. exists WhileCallable.msg_pytree. split; reflexivity.
Qed.

(** C3, amended: an invocation of a while loop in a tracing context
    captures the predicate, then the body, on the loop-carried state
    (with the register last in quantum mode), before it checks the
    predicate. When both are captured, it succeeds only if the predicate
    sub-program
    has exactly one output and that output is a boolean scalar; if the
    predicate has no output or several, or one that is not a boolean
    scalar, the invocation raises the [TypeError] of [_create_jaxpr] (the
    [TypeMismatchError] of the design) in the state the two captures left:
    nothing was queued or bound after them, and the enclosing program has
    the equations it had. *)
Theorem while_predicate_must_be_boolean_scalar :
  forall (self : WhileCallable.t) (args : list (pytree val)) (s : state),
    is_tracing s = true ->
    let quantum := hd_error (active_contexts s) in
    let init_val :=
      match quantum with
      | Some _ => PTuple (args ++ [PLeaf Qreg])
      | None => PTuple args
      end in
    let predicate :=
      match quantum with
      | Some _ => WhileCallable.new_cond self
      | None => WhileCallable.cond_fn self
      end in
    let body :=
      match quantum with
      | Some _ => WhileCallable.new_body self
      | None => WhileCallable.body_fn self
      end in
    forall cj cc ct s1 bj bc bt s2,
      _initial_style_jaxpr predicate (tree_structure init_val)
        (map _abstractify (leaves init_val)) s = (Ok (cj, cc, ct), s1) ->
      _initial_style_jaxpr body (tree_structure init_val)
        (map _abstractify (leaves init_val)) s1 = (Ok (bj, bc, bt), s2) ->
      (forall out s',
         WhileCallable.__call__ self args s = (Ok out, s') ->
         exists a, out_avals cj = [Shaped a] /\
                   strip_named_shape (strip_weak_type a) = bool_scalar) /\
      (bad_predicate cj ->
         exists msg,
           WhileCallable.__call__ self args s = (Raise (TypeError msg), s2) /\
           taxonomy (TypeError msg) = Some TypeMismatchError /\
           trace s2 = trace s).
Proof.
  intros self args s Htr quantum init_val predicate body
         cj cc ct s1 bj bc bt s2 Hc Hb.
  assert (Htrace : trace s2 = trace s).
  { pose proof (initial_style_jaxpr_trace predicate (tree_structure init_val)
                  (map _abstractify (leaves init_val)) s) as T1.
    pose proof (initial_style_jaxpr_trace body (tree_structure init_val)
                  (map _abstractify (leaves init_val)) s1) as T2.
    rewrite Hc in T1. rewrite Hb in T2. simpl in T1, T2. congruence. }
  destruct (WhileCallable_create_jaxpr_checked
              _ _ _ _ _ _ _ _ _ _ _ _ Hc Hb) as [Hs [Hok Hbad]].
  unfold WhileCallable.__call__, check_is_tracing, active_context.
  rewrite mbind_run, Htr, mbind_run.
  subst quantum init_val predicate body.
  destruct (hd_error (active_contexts s)) as [c|].
  - unfold WhileCallable.call_with_quantum_ctx. rewrite mbind_run.
    destruct (WhileCallable._create_jaxpr _ _ _ s) as [[x|e] s0];
      simpl in Hs, Hok, Hbad; subst s0.
    + split.
      * intros out s' _. exact (Hok x eq_refl).
      * intros B. destruct (Hbad B) as [msg [H _]]. discriminate.
    + split; [discriminate|].
      intros B. destruct (Hbad B) as [msg [H T]]. inversion H; subst.
      exists msg. repeat split; assumption.
  - unfold WhileCallable.call_with_classical_ctx. rewrite mbind_run.
    destruct (WhileCallable._create_jaxpr _ _ _ s) as [[x|e] s0];
      simpl in Hs, Hok, Hbad; subst s0.
    + split.
      * intros out s' _. exact (Hok x eq_refl).
      * intros B. destruct (Hbad B) as [msg [H _]]. discriminate.
    + split; [discriminate|].
      intros B. destruct (Hbad B) as [msg [H T]]. inversion H; subst.
      exists msg. repeat split; assumption.
Qed.

Lemma while_predicate_must_be_boolean_scalar_witness :
  exists msg s2,
    WhileCallable.__call__ integer_predicate_loop [PLeaf (VInt 0)]
                           classical_state
      = (Raise (TypeError msg), s2) /\
    taxonomy (TypeError msg) = Some TypeMismatchError.
Proof.
  evaluate (_initial_style_jaxpr
              (WhileCallable.cond_fn integer_predicate_loop)
              (tree_structure (PTuple [PLeaf (VInt 0)]))
              (map _abstractify (leaves (PTuple [PLeaf (VInt 0)])))
              classical_state) Hc.
  match type of Hc with
  | _ = (Ok (?cj, ?cc, ?ct), ?s1) =>
      evaluate (_initial_style_jaxpr
                  (WhileCallable.body_fn integer_predicate_loop)
                  (tree_structure (PTuple [PLeaf (VInt 0)]))
                  (map _abstractify (leaves (PTuple [PLeaf (VInt 0)])))
                  s1) Hb;
      match type of Hb with
      | _ = (Ok (?bj, ?bc, ?bt), ?s2) =>
          assert (B : bad_predicate cj)
            by (right; eexists; split; reflexivity);
          destruct (proj2 (while_predicate_must_be_boolean_scalar
                             integer_predicate_loop [PLeaf (VInt 0)]
                             classical_state eq_refl
                             cj cc ct s1 bj bc bt s2 Hc Hb) B)
            as [msg [H [T _]]];
          exists msg, s2; split; [exact H|exact T]
      end
  end.
Defined.

(** Counterexample to C3 as stated:
    [while_loop(lambda x: x + 1)(lambda x: x.foo)(0)]. The predicate is
    captured and returns an integer, not a boolean scalar, but the body
    is captured before the predicate is checked and raises: the
    invocation fails with the [AttributeError] of the body, not with
    [TypeError], in classical and in quantum mode. *)
Lemma while_bad_predicate_body_error_first :
  (exists cj cc ct s1 msg s',
     _initial_style_jaxpr (WhileCallable.cond_fn failing_body_loop)
       (tree_structure (PTuple [PLeaf (VInt 0)]))
       (map _abstractify (leaves (PTuple [PLeaf (VInt 0)])))
       classical_state = (Ok (cj, cc, ct), s1) /\
     bad_predicate cj /\
     WhileCallable.__call__ failing_body_loop [PLeaf (VInt 0)]
                            classical_state
       = (Raise (AttributeError msg), s')) /\
  (exists cj cc ct s1 msg s',
     _initial_style_jaxpr (WhileCallable.new_cond failing_body_loop)
       (tree_structure (PTuple ([PLeaf (VInt 0)] ++ [PLeaf Qreg])))
       (map _abstractify (leaves (PTuple ([PLeaf (VInt 0)] ++ [PLeaf Qreg]))))
       quantum_state = (Ok (cj, cc, ct), s1) /\
     bad_predicate cj /\
     WhileCallable.__call__ failing_body_loop [PLeaf (VInt 0)] quantum_state
       = (Raise (AttributeError msg), s')).
Proof.
  split.
  - evaluate (_initial_style_jaxpr (WhileCallable.cond_fn failing_body_loop)
                (tree_structure (PTuple [PLeaf (VInt 0)]))
                (map _abstractify (leaves (PTuple [PLeaf (VInt 0)])))
                classical_state) Hc.
    evaluate (WhileCallable.__call__ failing_body_loop [PLeaf (VInt 0)]
                                     classical_state) H.
    match type of Hc with
    | _ = (Ok (?cj, ?cc, ?ct), ?s1) => exists cj, cc, ct, s1
    end.
    match type of H with
    | _ = (Raise (AttributeError ?msg), ?s') => exists msg, s'
    end.
    split; [exact Hc|]. split; [|exact H].
    right. eexists. split; reflexivity.
  - evaluate (_initial_style_jaxpr (WhileCallable.new_cond failing_body_loop)
                (tree_structure (PTuple ([PLeaf (VInt 0)] ++ [PLeaf Qreg])))
                (map _abstractify
                   (leaves (PTuple ([PLeaf (VInt 0)] ++ [PLeaf Qreg]))))
                quantum_state) Hc.
    evaluate (WhileCallable.__call__ failing_body_loop [PLeaf (VInt 0)]
                                     quantum_state) H.
    match type of Hc with
    | _ = (Ok (?cj, ?cc, ?ct), ?s1) => exists cj, cc, ct, s1
    end.
    match type of H with
    | _ = (Raise (AttributeError ?msg), ?s') => exists msg, s'
    end.
    split; [exact Hc|]. split; [|exact H].
    right. eexists. split; reflexivity.
Qed.

(** *** Differentiation: the call *)

Lemma primitive_eqb_eq p q : primitive_eqb p q = true <-> p = q.
Proof.
  destruct p, q; simpl; split; intros H;
    try reflexivity; try discriminate.
  - apply String.eqb_eq in H. subst. reflexivity.
  - inversion H. apply String.eqb_refl.
Qed.

Lemma make_jaxpr_trace f args s :
  trace (snd (make_jaxpr f args s)) = trace s.
Proof.
  unfold make_jaxpr, tree_flatten. rewrite mbind_run.
  pose proof (initial_style_jaxpr_trace f (tree_structure (PTuple args))
                (map _abstractify (leaves (PTuple args))) s) as T.
  destruct (_initial_style_jaxpr f _ _ s) as [[[[j c] t]|e] s']; exact T.
Qed.

(** C5: a call of a [Grad] object captures the wrapped callable; the
    captured program must have exactly one operation, and that operation
    must be a function call. Otherwise an assertion fails (the
    [InternalConsistencyError] of the design) and nothing is bound; when
    both hold, and only then, one gradient operation is bound in the
    enclosing program, carrying the captured program, the method, the step
    size and the argument indices. *)
Theorem grad_call_requires_single_function_call :
  forall (self : Grad.t) (args : list (pytree val)) (s : state)
         (j : jaxpr) (s1 : state),
    make_jaxpr (callable_call (Grad.fn self)) args s = (Ok j, s1) ->
    (List.length (eqns j) <> 1 ->
     Grad.__call__ self args s
       = (Raise (AssertionError Grad.msg_not_well_defined), s1)) /\
    (forall e, eqns j = [e] -> eqn_primitive e <> func_p ->
     Grad.__call__ self args s
       = (Raise (AssertionError Grad.msg_not_a_function), s1)) /\
    (forall e, eqns j = [e] -> eqn_primitive e = func_p ->
     exists outs s',
       Grad.__call__ self args s = (Ok (PSeq (map PLeaf outs)), s') /\
       trace s' =
         trace s ++
         [Eqn grad_p (leaves (PTuple args)) [j]
              [("fn", PyStr (Grad.__name__ self));
               ("method", PyStr (Grad.method self));
               ("h", Grad.h self); ("argnum", Grad.argnum self)]
              outs]) /\
    (forall out s',
       Grad.__call__ self args s = (Ok out, s') ->
       exists e, eqns j = [e] /\ eqn_primitive e = func_p) /\
    trace s1 = trace s /\
    taxonomy (AssertionError Grad.msg_not_well_defined)
      = Some InternalConsistencyError /\
    taxonomy (AssertionError Grad.msg_not_a_function)
      = Some InternalConsistencyError.
Proof.
  intros self args s j s1 Hj.
  assert (T : trace s1 = trace s).
  { pose proof (make_jaxpr_trace (callable_call (Grad.fn self)) args s) as T.
    rewrite Hj in T. exact T. }
  unfold Grad.__call__. rewrite (mbind_Ok _ _ _ _ _ Hj).
  split; [|split; [|split; [|split; [|split; [exact T|split; reflexivity]]]]].
  - intros Hlen. apply Nat.eqb_neq in Hlen.
    rewrite mbind_run. unfold assert at 1. rewrite Hlen. reflexivity.
  - intros e He Hp. rewrite He. simpl.
    destruct (primitive_eqb (eqn_primitive e) func_p) eqn:E.
    + apply primitive_eqb_eq in E. contradiction.
    + reflexivity.
  - intros e He Hp. rewrite He. simpl.
    rewrite (proj2 (primitive_eqb_eq _ _) Hp). simpl.
    unfold grad_bind.
    destruct (Primitive_bind_trace grad_p (leaves (PTuple args)) [j]
                [("fn", PyStr (Grad.__name__ self));
                 ("method", PyStr (Grad.method self));
                 ("h", Grad.h self); ("argnum", Grad.argnum self)]
                (out_avals j) s1) as [outs [s' [Hb [Ht _]]]].
    exists outs, s'. split.
    + change (leaves (PTuple args)) with (flat_map leaves args) in Hb.
      rewrite (mbind_Ok (ret tt) _ s1 tt s1 eq_refl).
      rewrite (mbind_Ok (ret tt) _ s1 tt s1 eq_refl).
      rewrite (mbind_Ok _ _ _ _ _ Hb). reflexivity.
    + rewrite Ht, T. reflexivity.
  - intros out s'. rewrite mbind_run. unfold assert at 1.
    destruct (eqns j) as [|e [|e' r]]; simpl; try discriminate.
    destruct (primitive_eqb (eqn_primitive e) func_p) eqn:E;
      [|simpl; discriminate].
    intros _. exists e. split; [reflexivity|].
    apply primitive_eqb_eq. exact E.
Qed.

Lemma grad_call_requires_single_function_call_witness :
  exists outs s',
    Grad.__call__ sample_grad [PLeaf (VFloat 2 0)] classical_state
      = (Ok (PSeq (map PLeaf outs)), s').
Proof.
  evaluate (make_jaxpr (callable_call (Grad.fn sample_grad))
                       [PLeaf (VFloat 2 0)] classical_state) Hj.
  match type of Hj with
  | _ = (Ok (Jaxpr ?i [?e] ?o), ?s1) =>
      destruct (proj1 (proj2 (proj2
                 (grad_call_requires_single_function_call
                    sample_grad [PLeaf (VFloat 2 0)] classical_state
                    (Jaxpr i [e] o) s1 Hj))) e eq_refl eq_refl)
        as [outs [s' [H _]]];
      exists outs, s'; exact H
  end.
Defined.

(** *** Mid-circuit measurement *)

Lemma string_length_append a b :
  String.length (String.append a b) = String.length a + String.length b.
Proof. induction a as [|c a IH]; simpl; [reflexivity|]. rewrite IH. reflexivity. Qed.

Lemma hex_length w : forall n, String.length (hex w n) = w.
Proof.
  induction w as [|w IH]; intros n; simpl; [reflexivity|].
  rewrite string_length_append, IH. simpl. lia.
Qed.

Lemma substring_prefix a b :
  substring 0 (String.length a) (String.append a b) = a.
Proof.
  induction a as [|c a IH]; simpl.
  - destruct b; reflexivity.
  - rewrite IH. reflexivity.
Qed.

Lemma measurement_id_length u :
  String.length (substring 0 8 (str_uuid u)) = 8.
Proof.
  unfold str_uuid.
  rewrite <- (hex_length 8 (N.shiftr u 96)) at 1.
  rewrite substring_prefix. apply hex_length.
Qed.

Lemma tape_append_neq op c : tape_append op c <> c.
Proof.
  intros H. apply (f_equal circuit_operations) in H. simpl in H.
  apply (f_equal (@List.length operation)) in H.
  rewrite List.length_app in H. simpl in H. lia.
Qed.

Lemma measure_run wires s :
  List.length wires = 1 ->
  measure wires s =
    let s1 := mkState (is_tracing s) (trace s) (active_contexts s)
                      (next_tracer s) (uuid_source s) (S (uuid_drawn s)) in
    match active_contexts s with
    | c :: rest =>
        let s2 :=
          set_contexts
            (tape_append (MidCircuitMeasure (next_measurement_id s) wires) c
               :: rest) s1 in
        if has_jax_tape c
        then create_tracer TLeaf [Shaped bool_scalar] s2
        else (Raise (ValueError msg_measure_not_jitted), s2)
    | [] => (Raise (ValueError msg_measure_not_jitted), s1)
    end.
Proof.
  intros Hw. destruct s as [tr eq ctxs nt us ud].
  unfold measure, next_measurement_id, mbind, uuid4, new_MidCircuitMeasure.
  rewrite Hw. change (Nat.eqb 1 1) with true.
  unfold mbind, queue, active_context, ret, raise, set_contexts, tree_flatten.
  cbn -[str_uuid substring N.modulo N.pow create_tracer].
  destruct ctxs as [|c rest]; [reflexivity|].
  cbn -[str_uuid substring N.modulo N.pow create_tracer].
  destruct (has_jax_tape c); reflexivity.
Qed.

Lemma create_tracer_leaf a s :
  create_tracer TLeaf [a] s =
    (Ok (PLeaf (Tracer (next_tracer s) a)),
     mkState (is_tracing s) (trace s) (active_contexts s)
             (S (next_tracer s)) (uuid_source s) (uuid_drawn s)).
Proof. reflexivity. Qed.

(** C6: [measure] on one wire. Without an active recording context, or
    in one that has no tracing support, it raises the [ValueError] that the
    design names [UsageError]. In a recording context with tracing
    support it queues there one [MidCircuitMeasure] on the wire, tagged
    with the first 8 characters of a UUID newly drawn from the source, and
    returns a tracer of boolean scalar type. *)
Theorem measure_needs_tracing_support :
  forall (wires : list nat) (s : state),
    List.length wires = 1 ->
    String.length (next_measurement_id s) = 8 /\
    (match hd_error (active_contexts s) with
     | Some c => has_jax_tape c = false
     | None => True
     end ->
     fst (measure wires s) = Raise (ValueError msg_measure_not_jitted)) /\
    taxonomy (ValueError msg_measure_not_jitted) = Some UsageError /\
    (forall c rest,
       active_contexts s = c :: rest -> has_jax_tape c = true ->
       exists s',
         measure wires s
           = (Ok (PLeaf (Tracer (next_tracer s) (Shaped bool_scalar))), s') /\
         active_contexts s'
           = tape_append (MidCircuitMeasure (next_measurement_id s) wires) c
               :: rest /\
         trace s' = trace s /\
         uuid_drawn s' = S (uuid_drawn s)).
Proof.
  intros wires s Hw.
  split; [apply measurement_id_length|].
  split; [|split; [reflexivity|]].
  - intros Hctx. rewrite (measure_run wires s Hw). cbv zeta.
    destruct (active_contexts s) as [|c rest]; [reflexivity|].
    simpl in Hctx. rewrite Hctx. reflexivity.
  - intros c rest Hc Hj. rewrite (measure_run wires s Hw). cbv zeta.
    rewrite Hc, Hj, create_tracer_leaf. eexists. split; [reflexivity|].
    repeat split.
Qed.

Lemma measure_needs_tracing_support_witness :
  fst (measure [0] classical_state)
    = Raise (ValueError msg_measure_not_jitted) /\
  exists s',
    measure [0] quantum_state
      = (Ok (PLeaf (Tracer 0 (Shaped bool_scalar))), s') /\
    active_contexts s'
      = [mkTape true [MidCircuitMeasure "4a4d87c3" [0]] []].
Proof.
  pose proof (measure_needs_tracing_support [0] classical_state eq_refl)
    as [_ [H1 _]].
  pose proof (measure_needs_tracing_support [0] quantum_state eq_refl)
    as [_ [_ [_ H2]]].
  split; [exact (H1 I)|].
  destruct (H2 (mkTape true [] []) [] eq_refl eq_refl) as [s' [E [C _]]].
  exists s'. split; [exact E|].
  rewrite C. vm_compute. reflexivity.
Defined.

(** C10: when [measure] is called while a recording context is active
    that has no tracing support, the [MidCircuitMeasure] operation, with
    its new identifier, is built and queued into that context before the
    [ValueError] is raised: the failed call leaves the context with one
    more operation. *)
Theorem measure_queues_before_failing :
  forall (wires : list nat) (s : state) (c : QuantumTape)
         (rest : list QuantumTape),
    List.length wires = 1 ->
    active_contexts s = c :: rest ->
    has_jax_tape c = false ->
    exists s',
      measure wires s = (Raise (ValueError msg_measure_not_jitted), s') /\
      active_contexts s'
        = tape_append (MidCircuitMeasure (next_measurement_id s) wires) c
            :: rest /\
      active_contexts s' <> active_contexts s.
Proof.
  intros wires s c rest Hw Hc Hj.
  rewrite (measure_run wires s Hw). cbv zeta. rewrite Hc, Hj.
  eexists. split; [reflexivity|]. split; [reflexivity|].
  simpl. intros H. inversion H as [H0].
  exact (tape_append_neq _ _ H0).
Qed.

Lemma measure_queues_before_failing_witness :
  exists s',
    measure [0] plain_queue_state
      = (Raise (ValueError msg_measure_not_jitted), s') /\
    active_contexts s'
      = [mkTape false [MidCircuitMeasure "4a4d87c3" [0]] []].
Proof.
  destruct (measure_queues_before_failing
              [0] plain_queue_state (mkTape false [] []) []
              eq_refl eq_refl eq_refl) as [s' [E [C _]]].
  exists s'. split; [exact E|].
  rewrite C. vm_compute. reflexivity.
Defined.

(** *** Counted loops *)

Lemma queue_run op s c0 rest :
  active_contexts s = c0 :: rest ->
  queue op s = (Ok tt, set_contexts (tape_append op c0 :: rest) s).
Proof. intros H. unfold queue. rewrite H. reflexivity. Qed.

(** Counterexample to C2 as stated:
    [for_loop(7, 9, 1)(lambda i, acc: acc + i)(0)]
    in a quantum context queues a [ForLoop] node whose initial values are
    [[7, 0]], the lower bound in the index slot and then the argument,
    not the argument alone; in a classical context the same two values
    follow the three bounds among the operands of the bound operation. *)
Lemma for_loop_initial_values_include_index :
  (exists out s' bounds j c t,
     ForLoopCallable.__call__ sample_for_loop [PLeaf (VInt 0)] quantum_state
       = (Ok out, s') /\
     active_contexts s'
       = [mkTape true [ForLoop bounds [VInt 7; VInt 0] j c t] []] /\
     ~ initial_values_exclude_index
         (ForLoop bounds [VInt 7; VInt 0] j c t) [PLeaf (VInt 0)]) /\
  (exists out s' j ps outs,
     ForLoopCallable.__call__ sample_for_loop [PLeaf (VInt 0)] classical_state
       = (Ok out, s') /\
     trace s'
       = [Eqn qfor_p [VInt 7; VInt 9; VInt 1; VInt 7; VInt 0] [j] ps outs]).
Proof.
  split.
  - evaluate (ForLoopCallable.__call__ sample_for_loop [PLeaf (VInt 0)]
                                       quantum_state) H.
    match type of H with
    | _ = (Ok ?out, ?s') => exists out, s'
    end.
    do 4 eexists. split; [exact H|]. split; [reflexivity|].
    simpl. discriminate.
  - evaluate (ForLoopCallable.__call__ sample_for_loop [PLeaf (VInt 0)]
                                       classical_state) H.
    match type of H with
    | _ = (Ok ?out, ?s') => exists out, s'
    end.
    do 3 eexists. split; [exact H|]. reflexivity.
Qed.

(** C2, amended: the node emitted for [for_loop(lower, upper, step)]
    carries the three bound values; its initial loop-carried values are the
    lower bound, in the slot of the iteration index, followed by the
    flattened arguments of the invocation; and the first input of the body
    sub-program is the iteration index, with the abstract type of the
    lower bound. In quantum mode the node is the [ForLoop] operation
    queued into the active context, in classical mode the operation bound
    in the enclosing program, whose operands are the bounds, the captured
    constants and the initial values. *)
Theorem for_loop_node_carries_bounds_and_index_slot :
  forall (self : ForLoopCallable.t) (args : list (pytree val)) (s : state),
    let lo := ForLoopCallable.lower_bound self in
    let hi := ForLoopCallable.upper_bound self in
    let st := ForLoopCallable.step self in
    (forall ctx j c t s1 c0 rest,
       ForLoopCallable._create_jaxpr
         (PTuple ((PLeaf lo :: args) ++ [PLeaf Qreg]))
         (ForLoopCallable.new_body self) s = (Ok (j, c, t), s1) ->
       active_contexts s1 = c0 :: rest ->
       active_contexts
         (snd (ForLoopCallable.call_with_quantum_ctx self ctx args s))
         = tape_append
             (ForLoop [lo; hi; st] (lo :: leaves (PTuple args)) j c t) c0
             :: rest /\
       hd_error (in_avals j) = Some (_abstractify lo)) /\
    (forall j c t s1,
       ForLoopCallable._create_jaxpr (PTuple (PLeaf lo :: args))
         (ForLoopCallable.body_fn self) s = (Ok (j, c, t), s1) ->
       (exists outs,
          trace (snd (ForLoopCallable.call_with_classical_ctx self args s))
            = trace s ++
              [Eqn qfor_p ([lo; hi; st] ++ c ++ lo :: leaves (PTuple args))
                   [j]
                   [("body_nconsts", PyInt (Z.of_nat (List.length c)))]
                   outs]) /\
       hd_error (in_avals j) = Some (_abstractify lo)).
Proof.
  intros self args s lo hi st. split.
  - intros ctx j c t s1 c0 rest Hj Hctx. split.
    + unfold ForLoopCallable.call_with_quantum_ctx.
      fold lo hi st. cbv zeta.
      rewrite (mbind_Ok _ _ _ _ _ Hj). cbv beta iota.
      rewrite (mbind_Ok _ _ _ _ _ (queue_run _ _ _ _ Hctx)).
      rewrite (proj2 (tracers_for_non_qreg_frame _ _ _ _)).
      reflexivity.
    + unfold ForLoopCallable._create_jaxpr, tree_flatten in Hj.
      apply initial_style_jaxpr_in_avals in Hj. rewrite Hj. reflexivity.
  - intros j c t s1 Hj. split.
    + unfold ForLoopCallable.call_with_classical_ctx.
      fold lo hi st. cbv zeta.
      rewrite (mbind_Ok _ _ _ _ _ Hj). cbv beta iota.
      unfold qfor.
      destruct (Primitive_bind_trace qfor_p
                  ([lo; hi; st] ++ c ++ fst (tree_flatten (PTuple (PLeaf lo :: args))))
                  [j] [("body_nconsts", PyInt (Z.of_nat (List.length c)))]
                  (out_avals j) s1) as [outs [s' [Hb [Ht _]]]].
      exists outs. rewrite (mbind_Ok _ _ _ _ _ Hb).
      rewrite unflatten_or_raise_state, Ht.
      pose proof (initial_style_jaxpr_trace
                    (ForLoopCallable.body_fn self)
                    (tree_structure (PTuple (PLeaf lo :: args)))
                    (map _abstractify (leaves (PTuple (PLeaf lo :: args))))
                    s) as T.
      unfold ForLoopCallable._create_jaxpr, tree_flatten in Hj.
      rewrite Hj in T. simpl in T. rewrite T. reflexivity.
    + unfold ForLoopCallable._create_jaxpr, tree_flatten in Hj.
      apply initial_style_jaxpr_in_avals in Hj. rewrite Hj. reflexivity.
Qed.

Lemma for_loop_node_carries_bounds_and_index_slot_witness :
  exists j c t,
    active_contexts
      (snd (ForLoopCallable.call_with_quantum_ctx
              sample_for_loop (mkTape true [] []) [PLeaf (VInt 0)]
              quantum_state))
      = [tape_append
           (ForLoop [VInt 7; VInt 9; VInt 1] [VInt 7; VInt 0] j c t)
           (mkTape true [] [])] /\
    hd_error (in_avals j) = Some (scalar int64 true).
Proof.
  evaluate (ForLoopCallable._create_jaxpr
              (PTuple ((PLeaf (VInt 7) :: [PLeaf (VInt 0)]) ++ [PLeaf Qreg]))
              (ForLoopCallable.new_body sample_for_loop) quantum_state) Hj.
  match type of Hj with
  | _ = (Ok (?j, ?c, ?t), ?s1) =>
      exists j, c, t;
      exact (proj1 (for_loop_node_carries_bounds_and_index_slot
                      sample_for_loop [PLeaf (VInt 0)] quantum_state)
                   (mkTape true [] []) j c t s1 (mkTape true [] []) []
                   Hj eq_refl)
  end.
Defined.

(** *** The device adapter *)

Lemma supports_operation_In name :
  QJITDevice.supports_operation name = true <->
  In name QJITDevice.operations.
Proof.
  unfold QJITDevice.supports_operation. rewrite existsb_exists. split.
  - intros [x [Hin Heq]]. apply String.eqb_eq in Heq. subst. exact Hin.
  - intros Hin. exists name. split; [exact Hin|apply String.eqb_refl].
Qed.






(** *** Conditionals: the invocation *)

Lemma check_branches_return_types_spec tj fj :
  (but_last (out_avals tj) = but_last (out_avals fj) ->
   CondCallable.check_branches_return_types tj fj = Ok tt) /\
  (but_last (out_avals tj) <> but_last (out_avals fj) ->
   CondCallable.check_branches_return_types tj fj
     = Raise (TypeError CondCallable.msg_return_types)).
Proof.
  unfold CondCallable.check_branches_return_types, avals_eqb.
  destruct (list_eq_dec aval_eq_dec (but_last (out_avals tj))
                        (but_last (out_avals fj))) as [E|N]; simpl;
    split; intros H; try reflexivity; contradiction.
Qed.

(** In quantum mode the last output of each branch is the register, and
    a disagreement of the outputs before it is refused before the [Cond]
    operation is queued: the call ends in the state the captures left. *)
Lemma cond_quantum_mismatch_rejected self ctx s tj fj consts trees s1 :
  _initial_style_jaxprs_with_common_consts
    (CondCallable.new_true_fn self) (CondCallable.new_false_fn self)
    (TTuple [TLeaf]) [AbstractQreg] s = (Ok ((tj, fj), consts, trees), s1) ->
  but_last (out_avals tj) <> but_last (out_avals fj) ->
  CondCallable.call_with_quantum_ctx self ctx s
    = (Raise (TypeError CondCallable.msg_return_types), s1).
Proof.
  intros Hc Hne. unfold CondCallable.call_with_quantum_ctx.
  change (tree_flatten (PTuple [PLeaf Qreg])) with ([Qreg], TTuple [TLeaf]).
  cbv beta iota zeta.
  change (map _abstractify [Qreg]) with [AbstractQreg].
  rewrite (mbind_Ok _ _ _ _ _ Hc). cbv beta iota.
  rewrite (proj2 (check_branches_return_types_spec tj fj) Hne).
  reflexivity.
Qed.

(** C1, on the code: in classical mode the check of the branch outputs
    leaves out the last output of each branch, as it does in quantum mode
    where that output is the register. A conditional whose 'True'
    function returns an integer and which has no 'False' function, or one
    whose 'False' function returns a float, is accepted in a classical
    tracing context, and the [qcond] operation is bound with two
    sub-programs of different outputs; the first of these conditionals is
    refused in a quantum context, with no [Cond] operation queued. *)
Theorem cond_classical_mismatch_accepted :
  (exists c out s' tj fj,
     cond (VBool true) lambda_1 = Ok c /\
     CondCallable.__call__ c classical_state = (Ok out, s') /\
     trace s' = [Eqn qcond_p [VBool true] [tj; fj] [] (leaves out)] /\
     out_avals tj = [scalar int64 true] /\ out_avals fj = []) /\
  (exists c out s' tj fj,
     CondCallable.otherwise (CondCallable.__init__ (VBool true) lambda_1)
                            lambda_1_5 = Ok c /\
     CondCallable.__call__ c classical_state = (Ok out, s') /\
     trace s' = [Eqn qcond_p [VBool true] [tj; fj] [] (leaves out)] /\
     out_avals tj = [scalar int64 true] /\
     out_avals fj = [scalar float64 true]) /\
  (exists s',
     CondCallable.__call__ (CondCallable.__init__ (VBool true) lambda_1)
                           quantum_state
       = (Raise (TypeError CondCallable.msg_return_types), s') /\
     active_contexts s' = active_contexts quantum_state /\
     trace s' = trace quantum_state).
Proof.
  split; [|split].
  - evaluate (CondCallable.__call__
                (CondCallable.__init__ (VBool true) lambda_1)
                classical_state) H.
    match type of H with
    | _ = (Ok ?out, ?s') =>
        exists (CondCallable.__init__ (VBool true) lambda_1), out, s'
    end.
    do 2 eexists. split; [reflexivity|]. split; [exact H|].
    split; [reflexivity|]. split; reflexivity.
  - evaluate (CondCallable.__call__
                (CondCallable.mk (VBool true) lambda_1 lambda_1_5)
                classical_state) H.
    match type of H with
    | _ = (Ok ?out, ?s') =>
        exists (CondCallable.mk (VBool true) lambda_1 lambda_1_5), out, s'
    end.
    do 2 eexists. split; [reflexivity|]. split; [exact H|].
    split; [reflexivity|]. split; reflexivity.
  - evaluate (CondCallable.__call__
                (CondCallable.__init__ (VBool true) lambda_1)
                quantum_state) H.
    match type of H with
    | _ = (_, ?s') => exists s'
    end.
    split; [exact H|]. split; reflexivity.
Qed.

(** *** Further properties of the builders *)

(** X1: outside a tracing context the three control-flow builders refuse
    to be invoked: the call raises with the message of its builder and
    leaves the state as it was, so no branch, predicate or body is
    captured and nothing is queued or bound. *)
Theorem builders_refuse_outside_tracing :
  forall (s : state),
    is_tracing s = false ->
    (forall c,
       CondCallable.__call__ c s
         = (Raise (ValueError CondCallable.msg_not_tracing), s)) /\
    (forall w args,
       WhileCallable.__call__ w args s
         = (Raise (ValueError WhileCallable.msg_not_tracing), s)) /\
    (forall f args,
       ForLoopCallable.__call__ f args s
         = (Raise (ValueError ForLoopCallable.msg_not_tracing), s)).
Proof.
  intros s H.
  unfold CondCallable.__call__, WhileCallable.__call__,
    ForLoopCallable.__call__, check_is_tracing.
  repeat split; intros; rewrite mbind_run, H; reflexivity.
Qed.

Lemma builders_refuse_outside_tracing_witness :
  CondCallable.__call__ (CondCallable.__init__ (VBool true) lambda_1)
    (mkState false [] [] 0 sample_uuids 0)
  = (Raise (ValueError CondCallable.msg_not_tracing),
     mkState false [] [] 0 sample_uuids 0).
Proof.
  exact (proj1 (builders_refuse_outside_tracing
                  (mkState false [] [] 0 sample_uuids 0) eq_refl)
               (CondCallable.__init__ (VBool true) lambda_1)).
Defined.

(** X2: the check of the branch outputs passes exactly when the two
    lists of output types, each without its last element, are equal, and
    raises [TypeError] otherwise; it never looks at the last output of
    either branch, and two empty output lists, or one empty and one of a
    single type, always pass. *)
Theorem check_branches_return_types_ignores_last :
  forall (tj fj : jaxpr),
    (CondCallable.check_branches_return_types tj fj = Ok tt <->
     but_last (out_avals tj) = but_last (out_avals fj)) /\
    (CondCallable.check_branches_return_types tj fj
       = Raise (TypeError CondCallable.msg_return_types) <->
     but_last (out_avals tj) <> but_last (out_avals fj)) /\
    (forall i1 b1 i2 b2 u a b,
       CondCallable.check_branches_return_types
         (Jaxpr i1 b1 (u ++ [a])) (Jaxpr i2 b2 (u ++ [b])) = Ok tt) /\
    (forall i1 b1 i2 b2 a,
       CondCallable.check_branches_return_types
         (Jaxpr i1 b1 [a]) (Jaxpr i2 b2 []) = Ok tt).
Proof.
  intros tj fj.
  destruct (check_branches_return_types_spec tj fj) as [Heq Hne].
  split; [|split; [|split]].
  - split; [|exact Heq].
    intros H.
    destruct (list_eq_dec aval_eq_dec (but_last (out_avals tj))
                          (but_last (out_avals fj))) as [E|N];
      [exact E|].
    rewrite (Hne N) in H. discriminate.
  - split; [|exact Hne].
    intros H E. rewrite (Heq E) in H. discriminate.
  - intros i1 b1 i2 b2 u a b.
    apply (proj1 (check_branches_return_types_spec _ _)).
    simpl. rewrite !but_last_app. reflexivity.
  - intros i1 b1 i2 b2 a.
    apply (proj1 (check_branches_return_types_spec _ _)). reflexivity.
Qed.

(** X3: [grad] accepts a request exactly when the method, ["fd"] if left
    out, is one of ["fd"], ["ps"] and ["adj"], the step size is [None] or
    a number, and the method is ["fd"] or the callable is a quantum node.
    The request then keeps the method, has the step size given ([1e-7] for
    ["fd"] without one), and wraps the callable in a [Function] unless it
    is a quantum node; in every other case an assertion fails. *)
Theorem grad_accepts_exactly :
  forall (f : callable) (m : option string) (h a : pyobj),
    let method := match m with None => "fd" | Some x => x end in
    let valid :=
      existsb (String.eqb method) ["fd"; "ps"; "adj"]
      && (is_None h || is_Number h)
      && (String.eqb method "fd" || is_QNode f) in
    (if valid then
       exists g,
         grad f m h a = Ok g /\
         Grad.method g = method /\
         Grad.h g = (if String.eqb method "fd" && is_None h
                     then default_h else h) /\
         Grad.fn g = (if is_QNode f then f
                      else Function.as_callable (Function.mk f))
     else
       exists msg,
         grad f m h a = Raise (AssertionError msg) /\
         taxonomy (AssertionError msg) = Some ConfigurationError).
Proof.
  intros f m h a method valid. subst valid. unfold grad. fold method.
  destruct (existsb (String.eqb method) ["fd"; "ps"; "adj"]); simpl.
  2:{ exists msg_invalid_method. split; reflexivity. }
  unfold Grad.__init__.
  destruct (String.eqb method "fd") eqn:Hfd; simpl.
  - destruct (is_None h) eqn:Hn; simpl.
    + destruct (is_QNode f); eexists; repeat split.
    + rewrite Hn. destruct (is_Number h); simpl.
      * destruct (is_QNode f); eexists; repeat split.
      * exists msg_invalid_h. split; reflexivity.
  - destruct (is_None h || is_Number h); simpl.
    + destruct (is_QNode f); simpl.
      * eexists; repeat split.
      * exists Grad.msg_higher_order. split; reflexivity.
    + exists msg_invalid_h. split; reflexivity.
Qed.

(** X4: higher-order derivatives. A [Grad] object is not a quantum node,
    so differentiating it again with a method other than ["fd"] is
    refused by an assertion; with ["fd"] it is wrapped in a [Function]
    and the name of the second derivative is ["grad."] followed by the
    name of the first. The first derivative of a plain callable named
    [n] is named ["grad." ++ n], that of a quantum node keeps its name. *)
Theorem higher_order_derivatives :
  forall (g : Grad.t) (h a : pyobj),
    (forall m, String.eqb m "fd" = false ->
       exists msg,
         grad (Grad.as_callable g) (Some m) h a
           = Raise (AssertionError msg)) /\
    (forall g2,
       grad (Grad.as_callable g) (Some "fd") h a = Ok g2 ->
       Grad.__name__ g2 = String.append "grad." (Grad.__name__ g)) /\
    (forall f m g1,
       grad f m h a = Ok g1 ->
       Grad.__name__ g1
         = if is_QNode f then callable_name f
           else String.append "grad." (callable_name f)).
Proof.
  intros g h a. split; [|split].
  - intros m Hm. unfold grad, Grad.__init__. simpl. rewrite !Hm. simpl.
    repeat match goal with
           | |- context [if ?c then _ else _] => destruct c
           end; eexists; reflexivity.
  - intros g2. unfold grad, Grad.__init__. simpl.
    destruct (negb _); [discriminate|].
    intros H. inversion H. reflexivity.
  - intros f m g1. unfold grad, Grad.__init__.
    destruct (negb (existsb _ _)); [discriminate|].
    destruct (negb (is_None _ || is_Number _)); [discriminate|].
    destruct (is_QNode f) eqn:Hq.
    + simpl. destruct (negb _); intros H; inversion H; reflexivity.
    + simpl. destruct (negb _); intros H; inversion H; reflexivity.
Qed.

Lemma higher_order_derivatives_witness :
  exists g1 g2,
    grad square None PyNone PyNone = Ok g1 /\
    grad (Grad.as_callable g1) (Some "fd") PyNone PyNone = Ok g2 /\
    Grad.__name__ g2 = "grad.grad.square" /\
    exists msg,
      grad (Grad.as_callable g1) (Some "adj") PyNone PyNone
        = Raise (AssertionError msg).
Proof.
  evaluate (grad square None PyNone PyNone) H1.
  match type of H1 with
  | _ = Ok ?g1 =>
      evaluate (grad (Grad.as_callable g1) (Some "fd") PyNone PyNone) H2;
      match type of H2 with
      | _ = Ok ?g2 =>
          exists g1, g2; split; [exact H1|]; split; [exact H2|];
          split;
          [exact (proj1 (proj2 (higher_order_derivatives g1 PyNone PyNone))
                        g2 H2)
          |exact (proj1 (higher_order_derivatives g1 PyNone PyNone)
                        "adj" eq_refl)]
      end
  end.
Defined.

(** *** Further properties of the device adapter *)

Lemma expand_operations_supported d ops :
  forallb QJITDevice.stopping_condition ops = true ->
  QJITDevice.expand_operations d ops = ops.
Proof.
  destruct d as [|d]; [reflexivity|].
  induction ops as [|o rest IH]; simpl; [reflexivity|].
  intros H. apply andb_prop in H. destruct H as [Ho Hr].
  rewrite Ho. simpl. simpl in IH. rewrite (IH Hr). reflexivity.
Qed.

Lemma check_validity_supported ops :
  forallb QJITDevice.stopping_condition ops = true ->
  QJITDevice.check_validity ops [] = Ok tt.
Proof.
  induction ops as [|o rest IH]; simpl; [reflexivity|].
  intros H. apply andb_prop in H. destruct H as [Ho Hr].
  rewrite Ho. exact (IH Hr).
Qed.

(** X5: the four operations this file declares ([MidCircuitMeasure],
    [Cond], [WhileLoop] and [ForLoop]) are in the vocabulary of the
    device: the expansion stops at them whatever its depth, and a tape
    made of them only passes the device adapter unchanged. *)
Theorem catalyst_operations_are_primitive :
  forall (ops : list operation) (jt : bool) (obs : list observable)
         (max_expansion : nat),
    forallb is_catalyst_operation ops = true ->
    Forall (fun op => In (op_name op) QJITDevice.operations) ops /\
    QJITDevice.expand_operations max_expansion ops = ops /\
    QJITDevice.default_expand_fn (mkTape jt ops obs) max_expansion
      = Ok (mkTape jt ops obs).
Proof.
  intros ops jt obs max_expansion H.
  assert (Hs : forallb QJITDevice.stopping_condition ops = true).
  { rewrite forallb_forall in *. intros op Hin.
    specialize (H op Hin). destruct op; try discriminate; reflexivity. }
  assert (Hm : existsb QJITDevice.is_MidMeasureMP ops = false).
  { clear Hs. induction ops as [|o rest IH]; [reflexivity|].
    simpl in *. apply andb_prop in H. destruct H as [Ho Hr].
    rewrite (IH Hr). destruct o; try discriminate; reflexivity. }
  split; [|split].
  - rewrite Forall_forall. intros op Hin. apply supports_operation_In.
    rewrite forallb_forall in Hs. exact (Hs op Hin).
  - apply expand_operations_supported. exact Hs.
  - unfold QJITDevice.default_expand_fn,
      QJITDevice.super_default_expand_fn. simpl.
    rewrite Hm, (expand_operations_supported _ _ Hs),
      (check_validity_supported _ Hs).
    reflexivity.
Qed.

Lemma catalyst_operations_are_primitive_witness :
  QJITDevice.default_expand_fn
    (mkTape true [MidCircuitMeasure "4a4d87c3" [0]] []) 10
  = Ok (mkTape true [MidCircuitMeasure "4a4d87c3" [0]] []).
Proof.
  exact (proj2 (proj2 (catalyst_operations_are_primitive
                         [MidCircuitMeasure "4a4d87c3" [0]] true [] 10
                         eq_refl))).
Defined.

(** X6: a circuit whose operations are all declared by the device, none
    of them a foreign measurement, passes the device adapter unchanged,
    observables included, for every bound on the expansion; so the
    adapter applied to its own result returns it again. *)
Theorem default_expand_fn_fixes_supported_circuits :
  forall (circuit : QuantumTape) (max_expansion : nat),
    Forall (fun op => In (op_name op) QJITDevice.operations)
           (circuit_operations circuit) ->
    existsb QJITDevice.is_MidMeasureMP (circuit_operations circuit) = false ->
    QJITDevice.default_expand_fn circuit max_expansion = Ok circuit.
Proof.
  intros [jt ops obs] max_expansion Hall Hm. simpl in *.
  assert (Hs : forallb QJITDevice.stopping_condition ops = true).
  { rewrite forallb_forall. rewrite Forall_forall in Hall.
    intros op Hin. apply supports_operation_In. exact (Hall op Hin). }
  unfold QJITDevice.default_expand_fn, QJITDevice.super_default_expand_fn.
  simpl.
  rewrite Hm, (expand_operations_supported _ _ Hs),
    (check_validity_supported _ Hs).
  reflexivity.
Qed.

Lemma default_expand_fn_fixes_supported_circuits_witness :
  QJITDevice.default_expand_fn sample_circuit 3 = Ok sample_circuit.
Proof.
  apply default_expand_fn_fixes_supported_circuits.
  - constructor; [|constructor]. apply supports_operation_In. reflexivity.
  - reflexivity.
Defined.

(** *** Further properties of while loops *)

Lemma num_nodes_positive d : 1 <= num_nodes d.
Proof. destruct d; simpl; lia. Qed.

Lemma leaf_shaped_without_leaf {A} (t : pytree A) :
  treedef_is_leaf (tree_structure t) = true ->
  tree_structure t <> TLeaf ->
  leaves t = [].
Proof.
  unfold treedef_is_leaf. intros H N. apply Nat.eqb_eq in H.
  destruct t as [|a|l|l]; simpl in *.
  - reflexivity.
  - contradiction.
  - destruct l as [|x l]; [reflexivity|]. simpl in H.
    pose proof (num_nodes_positive (tree_structure x)). lia.
  - destruct l as [|x l]; [reflexivity|]. simpl in H.
    pose proof (num_nodes_positive (tree_structure x)). lia.
Qed.

Lemma initial_style_jaxpr_outputs f in_tree avals s j c t s' :
  _initial_style_jaxpr f in_tree avals s = (Ok (j, c, t), s') ->
  exists ans : pytree val,
    t = tree_structure ans /\
    out_avals j = map _abstractify (leaves ans).
Proof.
  unfold _initial_style_jaxpr.
  match goal with |- context [?m (set_trace [] s)] =>
    destruct (m (set_trace [] s)) as [[ans|e] s0] end;
    intros H; inversion H. exists ans. split; reflexivity.
Qed.

(** X7: the predicate of a while loop must return a bare value: when
    the output of the captured predicate is anything but a single leaf
    ([None], or a tuple or a list, even of one boolean scalar), the loop
    is refused with the [TypeError] that reports the output pytree, in
    the state the two captures left. *)
Theorem while_predicate_must_return_a_leaf :
  forall (init_val : pytree val) (new_cond new_body : pyfun) (s : state)
         cj cc ct s1 bj bc bt s2,
    _initial_style_jaxpr new_cond (tree_structure init_val)
      (map _abstractify (leaves init_val)) s = (Ok (cj, cc, ct), s1) ->
    _initial_style_jaxpr new_body (tree_structure init_val)
      (map _abstractify (leaves init_val)) s1 = (Ok (bj, bc, bt), s2) ->
    ct <> TLeaf ->
    WhileCallable._create_jaxpr init_val new_cond new_body s
      = (Raise (TypeError WhileCallable.msg_pytree), s2).
Proof.
  intros init_val nc nb s cj cc ct s1 bj bc bt s2 Hc Hb Hne.
  rewrite (WhileCallable_create_jaxpr_run _ _ _ _ _ _ _ _ _ _ _ _ Hc Hb).
  destruct (treedef_is_leaf ct) eqn:Hl; [|reflexivity].
  destruct (initial_style_jaxpr_outputs _ _ _ _ _ _ _ _ Hc)
    as [ans [Ht Ho]].
  subst ct. rewrite Ho, (leaf_shaped_without_leaf ans Hl Hne).
  reflexivity.
Qed.

Lemma while_predicate_must_return_a_leaf_witness :
  exists cj cc ct s1 s2,
    _initial_style_jaxpr (WhileCallable.cond_fn tuple_predicate_loop)
      (tree_structure (PTuple [PLeaf (VInt 0)]))
      (map _abstractify (leaves (PTuple [PLeaf (VInt 0)])))
      classical_state = (Ok (cj, cc, ct), s1) /\
    out_avals cj = [Shaped bool_scalar] /\
    WhileCallable._create_jaxpr (PTuple [PLeaf (VInt 0)])
      (WhileCallable.cond_fn tuple_predicate_loop)
      (WhileCallable.body_fn tuple_predicate_loop) classical_state
      = (Raise (TypeError WhileCallable.msg_pytree), s2).
Proof.
  evaluate (_initial_style_jaxpr
              (WhileCallable.cond_fn tuple_predicate_loop)
              (tree_structure (PTuple [PLeaf (VInt 0)]))
              (map _abstractify (leaves (PTuple [PLeaf (VInt 0)])))
              classical_state) Hc.
  match type of Hc with
  | _ = (Ok (?cj, ?cc, ?ct), ?s1) =>
      evaluate (_initial_style_jaxpr
                  (WhileCallable.body_fn tuple_predicate_loop)
                  (tree_structure (PTuple [PLeaf (VInt 0)]))
                  (map _abstractify (leaves (PTuple [PLeaf (VInt 0)])))
                  s1) Hb;
      match type of Hb with
      | _ = (Ok (?bj, ?bc, ?bt), ?s2) =>
          exists cj, cc, ct, s1, s2;
          split; [exact Hc|]; split; [reflexivity|];
          exact (while_predicate_must_return_a_leaf
                   (PTuple [PLeaf (VInt 0)])
                   (WhileCallable.cond_fn tuple_predicate_loop)
                   (WhileCallable.body_fn tuple_predicate_loop)
                   classical_state cj cc ct s1 bj bc bt s2 Hc Hb
                   ltac:(discriminate))
      end
  end.
Defined.

(** *** The nodes emitted by conditionals and while loops *)

Lemma new_tracers_avals l :
  forall s vs s', new_tracers l s = (Ok vs, s') -> map _abstractify vs = l.
Proof.
  induction l as [|a l IH]; intros s vs s' H; simpl in H.
  - inversion H. reflexivity.
  - unfold mbind, new_tracer at 1 in H.
    match type of H with
    | context [new_tracers l ?s0] =>
        destruct (new_tracers l s0) as [[ws|e] s1] eqn:Hl
    end; [|discriminate].
    inversion H. subst. simpl. f_equal. exact (IH _ _ _ Hl).
Qed.

Lemma Primitive_bind_avals p invars subs params ravals s outs s' :
  Primitive_bind p invars subs params ravals s = (Ok outs, s') ->
  map _abstractify outs = ravals.
Proof.
  unfold Primitive_bind. rewrite mbind_run.
  destruct (new_tracers ravals s) as [[vs|e] s0] eqn:Hn; [|discriminate].
  intros H. inversion H. subst. exact (new_tracers_avals _ _ _ _ Hn).
Qed.

Lemma common_consts_trace f1 f2 in_tree avals s :
  trace (snd (_initial_style_jaxprs_with_common_consts f1 f2 in_tree avals s))
  = trace s.
Proof.
  unfold _initial_style_jaxprs_with_common_consts. rewrite mbind_run.
  pose proof (initial_style_jaxpr_trace f1 in_tree avals s) as T1.
  destruct (_initial_style_jaxpr f1 in_tree avals s)
    as [[[[j1 c1] t1]|e] s1]; [|exact T1].
  simpl in T1. rewrite mbind_run.
  pose proof (initial_style_jaxpr_trace f2 in_tree avals s1) as T2.
  destruct (_initial_style_jaxpr f2 in_tree avals s1)
    as [[[[j2 c2] t2]|e] s2]; simpl in *; congruence.
Qed.

Lemma WhileCallable_create_jaxpr_trace init_val nc nb s :
  trace (snd (WhileCallable._create_jaxpr init_val nc nb s)) = trace s.
Proof.
  unfold WhileCallable._create_jaxpr, tree_flatten. rewrite mbind_run.
  pose proof (initial_style_jaxpr_trace nc (tree_structure init_val)
                (map _abstractify (leaves init_val)) s) as T1.
  destruct (_initial_style_jaxpr nc _ _ s) as [[[[cj cc] ct]|e] s1];
    [|exact T1].
  simpl in T1. rewrite mbind_run.
  pose proof (initial_style_jaxpr_trace nb (tree_structure init_val)
                (map _abstractify (leaves init_val)) s1) as T2.
  destruct (_initial_style_jaxpr nb _ _ s1) as [[[[bj bc] bt]|e] s2];
    simpl in *; [|congruence].
  destruct (negb (treedef_is_leaf ct) || _); simpl; [congruence|].
  destruct (out_avals cj) as [|p r]; simpl; [congruence|].
  destruct (negb (WhileCallable.is_boolean_scalar p)); simpl; congruence.
Qed.

Lemma queue_trace op s : trace (snd (queue op s)) = trace s.
Proof. unfold queue. destruct (active_contexts s); reflexivity. Qed.

(** X8: a conditional whose captured branches pass the check emits
    exactly one node. In quantum mode one [Cond] operation is queued into
    the active context, carrying the predicate, the captured constants,
    the two sub-programs, the tree of the single register argument and
    the output trees, and the enclosing program gets no equation. In
    classical mode one [qcond] operation is bound in the enclosing
    program, on the predicate followed by the captured constants, with
    the two sub-programs, and its results have the output types of the
    'True' branch. *)
Theorem cond_emits_one_node :
  forall (self : CondCallable.t) (s : state) tj fj consts trees s1,
    but_last (out_avals tj) = but_last (out_avals fj) ->
    (forall ctx c0 rest,
       _initial_style_jaxprs_with_common_consts
         (CondCallable.new_true_fn self) (CondCallable.new_false_fn self)
         (TTuple [TLeaf]) [AbstractQreg] s
         = (Ok ((tj, fj), consts, trees), s1) ->
       active_contexts s1 = c0 :: rest ->
       active_contexts (snd (CondCallable.call_with_quantum_ctx self ctx s))
         = tape_append
             (Cond (CondCallable.pred self) consts tj fj (TTuple [TLeaf])
                   trees) c0 :: rest /\
       trace (snd (CondCallable.call_with_quantum_ctx self ctx s))
         = trace s) /\
    (_initial_style_jaxprs_with_common_consts
       (call (CondCallable.true_fn self)) (call (CondCallable.false_fn self))
       (TSeq []) [] s = (Ok ((tj, fj), consts, trees), s1) ->
     exists outs,
       trace (snd (CondCallable.call_with_classical_ctx self s))
         = trace s ++
           [Eqn qcond_p (CondCallable.pred self :: consts) [tj; fj] [] outs] /\
       map _abstractify outs = out_avals tj /\
       active_contexts (snd (CondCallable.call_with_classical_ctx self s))
         = active_contexts s1).
Proof.
  intros self s tj fj consts trees s1 Heq.
  pose proof (proj1 (check_branches_return_types_spec tj fj) Heq) as Hck.
  split.
  - intros ctx c0 rest Hc Hctx.
    pose proof (common_consts_trace
                  (CondCallable.new_true_fn self)
                  (CondCallable.new_false_fn self)
                  (TTuple [TLeaf]) [AbstractQreg] s) as T.
    rewrite Hc in T. simpl in T.
    unfold CondCallable.call_with_quantum_ctx.
    change (tree_flatten (PTuple [PLeaf Qreg])) with ([Qreg], TTuple [TLeaf]).
    cbv beta iota zeta.
    change (map _abstractify [Qreg]) with [AbstractQreg].
    rewrite (mbind_Ok _ _ _ _ _ Hc). cbv beta iota.
    rewrite Hck.
    rewrite (mbind_Ok (lift (Ok tt)) _ s1 tt s1 eq_refl).
    rewrite (mbind_Ok _ _ _ _ _ (queue_run _ _ _ _ Hctx)).
    destruct (tracers_for_non_qreg_frame ctx (nth 0 trees TNone)
                (out_avals tj)
                (set_contexts
                   (tape_append
                      (Cond (CondCallable.pred self) consts tj fj
                            (TTuple [TLeaf]) trees) c0 :: rest) s1))
      as [Ht Hc'].
    rewrite Ht, Hc'. split; [reflexivity|exact T].
  - intros Hc.
    pose proof (common_consts_trace
                  (call (CondCallable.true_fn self))
                  (call (CondCallable.false_fn self))
                  (TSeq []) [] s) as T.
    rewrite Hc in T. simpl in T.
    unfold CondCallable.call_with_classical_ctx.
    change (tree_flatten (@PSeq val [])) with (@nil val, TSeq []).
    cbv beta iota zeta.
    change (map _abstractify []) with (@nil aval).
    rewrite (mbind_Ok _ _ _ _ _ Hc). cbv beta iota.
    rewrite Hck.
    rewrite (mbind_Ok (lift (Ok tt)) _ s1 tt s1 eq_refl).
    unfold qcond.
    destruct (Primitive_bind_trace qcond_p (CondCallable.pred self :: consts)
                [tj; fj] [] (out_avals tj) s1)
      as [outs [s' [Hb [Ht Hx]]]].
    exists outs. rewrite (mbind_Ok _ _ _ _ _ Hb).
    rewrite unflatten_or_raise_state, Ht, T, Hx.
    split; [reflexivity|]. split; [|reflexivity].
    exact (Primitive_bind_avals _ _ _ _ _ _ _ _ Hb).
Qed.

Lemma cond_emits_one_node_witness :
  exists outs,
    trace (snd (CondCallable.call_with_classical_ctx
                  (CondCallable.mk (VBool true) lambda_1 lambda_2)
                  classical_state))
      = [Eqn qcond_p [VBool true]
             [Jaxpr [] [] [scalar int64 true];
              Jaxpr [] [] [scalar int64 true]] [] outs] /\
    map _abstractify outs = [scalar int64 true].
Proof.
  evaluate (_initial_style_jaxprs_with_common_consts
              (call lambda_1) (call lambda_2) (TSeq []) [] classical_state)
           Hc.
  match type of Hc with
  | _ = (Ok ((?tj, ?fj), ?consts, ?trees), ?s1) =>
      destruct (proj2 (cond_emits_one_node
                         (CondCallable.mk (VBool true) lambda_1 lambda_2)
                         classical_state tj fj consts trees s1 eq_refl) Hc)
        as [outs [Ht [Ha _]]];
      exists outs; split; [exact Ht|exact Ha]
  end.
Defined.

(** X9: a while loop whose captures pass the check of the predicate
    emits exactly one node. In quantum mode one [WhileLoop] operation is
    queued into the active context; its initial values are the flattened
    arguments of the invocation, without the register, and it carries the
    two sub-programs with their constants kept apart. In classical mode
    one [qwhile] operation is bound, on the constants of the predicate,
    then those of the body, then the flattened arguments, with the two
    counts of constants as parameters; its results have the output types
    of the body. *)
Theorem while_emits_one_node :
  forall (self : WhileCallable.t) (args : list (pytree val)) (s : state)
         bj cj cc bc bt s1,
    (forall ctx c0 rest,
       WhileCallable._create_jaxpr (PTuple (args ++ [PLeaf Qreg]))
         (WhileCallable.new_cond self) (WhileCallable.new_body self) s
         = (Ok (bj, cj, cc, bc, bt), s1) ->
       active_contexts s1 = c0 :: rest ->
       active_contexts
         (snd (WhileCallable.call_with_quantum_ctx self ctx args s))
         = tape_append (WhileLoop (leaves (PTuple args)) bj cj cc bc bt) c0
             :: rest /\
       trace (snd (WhileCallable.call_with_quantum_ctx self ctx args s))
         = trace s) /\
    (WhileCallable._create_jaxpr (PTuple args)
       (WhileCallable.cond_fn self) (WhileCallable.body_fn self) s
       = (Ok (bj, cj, cc, bc, bt), s1) ->
     exists outs,
       trace (snd (WhileCallable.call_with_classical_ctx self args s))
         = trace s ++
           [Eqn qwhile_p (cc ++ bc ++ leaves (PTuple args)) [cj; bj]
                [("cond_nconsts", PyInt (Z.of_nat (List.length cc)));
                 ("body_nconsts", PyInt (Z.of_nat (List.length bc)))]
                outs] /\
       map _abstractify outs = out_avals bj).
Proof.
  intros self args s bj cj cc bc bt s1. split.
  - intros ctx c0 rest Hc Hctx.
    pose proof (WhileCallable_create_jaxpr_trace
                  (PTuple (args ++ [PLeaf Qreg]))
                  (WhileCallable.new_cond self)
                  (WhileCallable.new_body self) s) as T.
    rewrite Hc in T. simpl in T.
    unfold WhileCallable.call_with_quantum_ctx.
    rewrite (mbind_Ok _ _ _ _ _ Hc). cbv beta iota zeta.
    rewrite (mbind_Ok _ _ _ _ _ (queue_run _ _ _ _ Hctx)).
    destruct (tracers_for_non_qreg_frame ctx bt (out_avals bj)
                (set_contexts
                   (tape_append
                      (WhileLoop (fst (tree_flatten (PTuple args)))
                                 bj cj cc bc bt) c0 :: rest) s1))
      as [Ht Hc'].
    rewrite Ht, Hc'. split; [reflexivity|exact T].
  - intros Hc.
    pose proof (WhileCallable_create_jaxpr_trace (PTuple args)
                  (WhileCallable.cond_fn self)
                  (WhileCallable.body_fn self) s) as T.
    rewrite Hc in T. simpl in T.
    unfold WhileCallable.call_with_classical_ctx.
    rewrite (mbind_Ok _ _ _ _ _ Hc). cbv beta iota zeta.
    unfold qwhile.
    destruct (Primitive_bind_trace qwhile_p
                (cc ++ bc ++ fst (tree_flatten (PTuple args))) [cj; bj]
                [("cond_nconsts", PyInt (Z.of_nat (List.length cc)));
                 ("body_nconsts", PyInt (Z.of_nat (List.length bc)))]
                (out_avals bj) s1)
      as [outs [s' [Hb [Ht _]]]].
    exists outs. rewrite (mbind_Ok _ _ _ _ _ Hb).
    rewrite unflatten_or_raise_state, Ht, T.
    split; [reflexivity|].
    exact (Primitive_bind_avals _ _ _ _ _ _ _ _ Hb).
Qed.

Lemma while_emits_one_node_witness :
  exists bj cj,
    active_contexts
      (snd (WhileCallable.call_with_quantum_ctx
              sample_while_loop (mkTape true [] []) [PLeaf (VInt 0)]
              quantum_state))
      = [tape_append (WhileLoop [VInt 0] bj cj [] [] (TTuple [TLeaf; TLeaf]))
                     (mkTape true [] [])].
Proof.
  evaluate (WhileCallable._create_jaxpr
              (PTuple ([PLeaf (VInt 0)] ++ [PLeaf Qreg]))
              (WhileCallable.new_cond sample_while_loop)
              (WhileCallable.new_body sample_while_loop) quantum_state) Hc.
  match type of Hc with
  | _ = (Ok (?bj, ?cj, ?cc, ?bc, ?bt), ?s1) =>
      exists bj, cj;
      exact (proj1 (proj1 (while_emits_one_node
                             sample_while_loop [PLeaf (VInt 0)]
                             quantum_state bj cj cc bc bt s1)
                          (mkTape true [] []) (mkTape true [] []) []
                          Hc eq_refl))
  end.
Defined.

Lemma capture_nullary f s ans s1 :
  f [] (set_trace [] s) = (Ok ans, s1) ->
  _initial_style_jaxpr f (TSeq []) [] s
    = (Ok (Jaxpr [] (trace s1) (map _abstractify (leaves ans)),
           closed_over (next_tracer s) (trace s1) (leaves ans),
           tree_structure ans),
       set_trace (trace s) s1).
Proof.
  intros H. unfold _initial_style_jaxpr.
  change (new_tracers []) with (@ret (list val) []).
  rewrite (mbind_Ok (ret []) _ (set_trace [] s) [] (set_trace [] s) eq_refl).
  change (tree_unflatten (TSeq []) (@nil val)) with (Some (@PSeq val [])).
  cbv beta iota. change (star_args (@PSeq val [])) with (@nil (pytree val)).
  rewrite H. reflexivity.
Qed.

(** X10: the 'False' branch is optional when no value is returned: a
    conditional built without [otherwise], whose 'True' function returns
    [None], is accepted in classical mode; it binds one [qcond] operation
    without results, whose second sub-program is empty, and returns
    [None]. *)
Theorem cond_without_otherwise_returns_nothing :
  forall (pred : val) (tf : pyfunction) (s s1 : state),
    call tf [] (set_trace [] s) = (Ok PNone, s1) ->
    exists consts s',
      CondCallable.call_with_classical_ctx (CondCallable.__init__ pred tf) s
        = (Ok PNone, s') /\
      trace s'
        = trace s ++
          [Eqn qcond_p (pred :: consts)
               [Jaxpr [] (trace s1) []; Jaxpr [] [] []] [] []].
Proof.
  intros pred tf s s1 H.
  assert (Hc : _initial_style_jaxprs_with_common_consts
                 (call tf) (call lambda_None) (TSeq []) [] s
               = (Ok ((Jaxpr [] (trace s1) [], Jaxpr [] [] []),
                      dedup_tracers []
                        (closed_over (next_tracer s) (trace s1) [] ++ []),
                      [TNone; TNone]),
                  set_trace (trace s)
                    (set_trace [] (set_trace (trace s) s1)))).
  { unfold _initial_style_jaxprs_with_common_consts.
    rewrite (mbind_Ok _ _ _ _ _ (capture_nullary (call tf) s PNone s1 H)).
    cbv beta iota.
    rewrite (mbind_Ok _ _ _ _ _
               (capture_nullary (call lambda_None) (set_trace (trace s) s1)
                  PNone (set_trace [] (set_trace (trace s) s1)) eq_refl)).
    reflexivity. }
  unfold CondCallable.call_with_classical_ctx, CondCallable.__init__.
  change (tree_flatten (@PSeq val [])) with (@nil val, TSeq []).
  cbv beta iota zeta.
  change (map _abstractify []) with (@nil aval).
  cbn [CondCallable.true_fn CondCallable.false_fn CondCallable.pred].
  rewrite (mbind_Ok _ _ _ _ _ Hc).
  eexists. eexists. split; reflexivity.
Qed.

Lemma cond_without_otherwise_returns_nothing_witness :
  exists consts s',
    CondCallable.call_with_classical_ctx
      (CondCallable.__init__ (VBool true) lambda_None) classical_state
      = (Ok PNone, s') /\
    trace s'
      = [Eqn qcond_p (VBool true :: consts)
             [Jaxpr [] [] []; Jaxpr [] [] []] [] []].
Proof.
  exact (cond_without_otherwise_returns_nothing
           (VBool true) lambda_None classical_state
           (set_trace [] classical_state) eq_refl).
Defined.

(** *** Function calls *)

(** X11: calling a [Function] captures the wrapped callable on the
    arguments and binds exactly one function-call operation in the
    enclosing program: its operands are the flattened arguments, it
    carries the captured program and the name ["grad."] followed by the
    name of the callable, and its results have the output types of the
    captured program. When the capture raises, the call raises the same
    exception and the enclosing program gets no equation. *)
Theorem function_call_binds_one_node :
  forall (F : Function.t) (args : list (pytree val)) (s : state),
    (forall j s1,
       make_jaxpr (callable_call (Function.fn F)) args s = (Ok j, s1) ->
       exists outs s',
         Function.__call__ F args s = (Ok (PSeq (map PLeaf outs)), s') /\
         trace s'
           = trace s ++
             [Eqn func_p (leaves (PTuple args)) [j]
                  [("fn", PyStr (String.append "grad."
                                   (callable_name (Function.fn F))))]
                  outs] /\
         map _abstractify outs = out_avals j) /\
    (forall e s1,
       make_jaxpr (callable_call (Function.fn F)) args s = (Raise e, s1) ->
       Function.__call__ F args s = (Raise e, s1) /\ trace s1 = trace s).
Proof.
  intros F args s.
  pose proof (make_jaxpr_trace (callable_call (Function.fn F)) args s) as T.
  split.
  - intros j s1 Hj. rewrite Hj in T. simpl in T.
    unfold Function.__call__. rewrite (mbind_Ok _ _ _ _ _ Hj).
    unfold func_bind, Function.__name__.
    destruct (Primitive_bind_trace func_p (leaves (PTuple args)) [j]
                [("fn", PyStr (String.append "grad."
                                 (callable_name (Function.fn F))))]
                (out_avals j) s1) as [outs [s' [Hb [Ht _]]]].
    exists outs, s'. rewrite (mbind_Ok _ _ _ _ _ Hb).
    split; [reflexivity|]. split; [rewrite Ht, T; reflexivity|].
    exact (Primitive_bind_avals _ _ _ _ _ _ _ _ Hb).
  - intros e s1 Hj. rewrite Hj in T. simpl in T.
    unfold Function.__call__. rewrite (mbind_Raise _ _ _ _ _ Hj).
    split; [reflexivity|exact T].
Qed.

Lemma function_call_binds_one_node_witness :
  exists j outs s',
    Function.__call__ (Function.mk square) [PLeaf (VFloat 2 0)]
                      classical_state
      = (Ok (PSeq (map PLeaf outs)), s') /\
    trace s'
      = [Eqn func_p [VFloat 2 0] [j] [("fn", PyStr "grad.square")] outs].
Proof.
  evaluate (make_jaxpr (callable_call square) [PLeaf (VFloat 2 0)]
                       classical_state) Hj.
  match type of Hj with
  | _ = (Ok ?j, ?s1) =>
      destruct (proj1 (function_call_binds_one_node
                         (Function.mk square) [PLeaf (VFloat 2 0)]
                         classical_state) j s1 Hj)
        as [outs [s' [H [T _]]]];
      exists j, outs, s'; split; [exact H|exact T]
  end.
Defined.

(** *** Pytrees *)

Lemma pytree_nested_ind {A} (P : pytree A -> Prop)
  (HN : P PNone) (HL : forall a, P (PLeaf a))
  (HT : forall l, Forall P l -> P (PTuple l))
  (HS : forall l, Forall P l -> P (PSeq l)) :
  forall t, P t.
Proof.
  fix IH 1. intros [|a|l|l].
  - exact HN.
  - apply HL.
  - apply HT. induction l as [|x l IHl]; constructor;
      [apply IH|exact IHl].
  - apply HS. induction l as [|x l IHl]; constructor;
      [apply IH|exact IHl].
Qed.

Lemma unflatten_from_tuple_cons {B} d ds (xs : list B) :
  unflatten_from (TTuple (d :: ds)) xs =
  match unflatten_from d xs with
  | Some (t, r) =>
      match unflatten_from (TTuple ds) r with
      | Some (PTuple ts, r') => Some (PTuple (t :: ts), r')
      | _ => None
      end
  | None => None
  end.
Proof.
  cbn. destruct (unflatten_from d xs) as [[t r]|]; [|reflexivity].
  match goal with
  | |- match (match ?X with Some _ => _ | None => _ end) with
       | Some _ => _ | None => _ end = _ =>
      destruct X as [[ts r']|]
  end; reflexivity.
Qed.

Lemma unflatten_from_seq_cons {B} d ds (xs : list B) :
  unflatten_from (TSeq (d :: ds)) xs =
  match unflatten_from d xs with
  | Some (t, r) =>
      match unflatten_from (TSeq ds) r with
      | Some (PSeq ts, r') => Some (PSeq (t :: ts), r')
      | _ => None
      end
  | None => None
  end.
Proof.
  cbn. destruct (unflatten_from d xs) as [[t r]|]; [|reflexivity].
  match goal with
  | |- match (match ?X with Some _ => _ | None => _ end) with
       | Some _ => _ | None => _ end = _ =>
      destruct X as [[ts r']|]
  end; reflexivity.
Qed.

(** Unflattening the structure of a tree on as many values as it has
    leaves gives a tree of that structure with those leaves. *)
Lemma unflatten_from_structure {A B} (t : pytree A) :
  forall (xs rest : list B),
    List.length xs = List.length (leaves t) ->
    exists t' : pytree B,
      unflatten_from (tree_structure t) (xs ++ rest) = Some (t', rest) /\
      tree_structure t' = tree_structure t /\
      leaves t' = xs.
Proof.
  induction t as [|a|l IH|l IH] using pytree_nested_ind; intros xs rest Hlen.
  - destruct xs; [|discriminate]. exists PNone. repeat split.
  - destruct xs as [|x [|y xs]]; try discriminate.
    exists (PLeaf x). repeat split.
  - revert xs rest Hlen.
    induction IH as [|x l Hx Hl IHl]; intros xs rest Hlen.
    + destruct xs; [|discriminate]. exists (PTuple []). repeat split.
    + simpl in Hlen. rewrite List.length_app in Hlen.
      destruct (Hx (firstn (List.length (leaves x)) xs)
                   (skipn (List.length (leaves x)) xs ++ rest))
        as [t1 [H1 [S1 L1]]].
      { rewrite List.length_firstn. lia. }
      destruct (IHl (skipn (List.length (leaves x)) xs) rest)
        as [t2 [H2 [S2 L2]]].
      { rewrite List.length_skipn. simpl. lia. }
      destruct t2 as [| |ts|]; try discriminate.
      exists (PTuple (t1 :: ts)).
      change (tree_structure (PTuple (x :: l)))
        with (TTuple (tree_structure x :: map tree_structure l)).
      rewrite unflatten_from_tuple_cons.
      rewrite <- (firstn_skipn (List.length (leaves x)) xs) at 1.
      rewrite <- app_assoc, H1.
      change (TTuple (map tree_structure l))
        with (tree_structure (PTuple l)).
      rewrite H2. split; [reflexivity|]. split.
      * simpl. simpl in S2. inversion S2. rewrite S1. reflexivity.
      * simpl. simpl in L2. rewrite L1, L2. apply firstn_skipn.
  - revert xs rest Hlen.
    induction IH as [|x l Hx Hl IHl]; intros xs rest Hlen.
    + destruct xs; [|discriminate]. exists (PSeq []). repeat split.
    + simpl in Hlen. rewrite List.length_app in Hlen.
      destruct (Hx (firstn (List.length (leaves x)) xs)
                   (skipn (List.length (leaves x)) xs ++ rest))
        as [t1 [H1 [S1 L1]]].
      { rewrite List.length_firstn. lia. }
      destruct (IHl (skipn (List.length (leaves x)) xs) rest)
        as [t2 [H2 [S2 L2]]].
      { rewrite List.length_skipn. simpl. lia. }
      destruct t2 as [| | |ts]; try discriminate.
      exists (PSeq (t1 :: ts)).
      change (tree_structure (PSeq (x :: l)))
        with (TSeq (tree_structure x :: map tree_structure l)).
      rewrite unflatten_from_seq_cons.
      rewrite <- (firstn_skipn (List.length (leaves x)) xs) at 1.
      rewrite <- app_assoc, H1.
      change (TSeq (map tree_structure l))
        with (tree_structure (PSeq l)).
      rewrite H2. split; [reflexivity|]. split.
      * simpl. simpl in S2. inversion S2. rewrite S1. reflexivity.
      * simpl. simpl in L2. rewrite L1, L2. apply firstn_skipn.
Qed.

Lemma tree_unflatten_structure {A B} (t : pytree A) (xs : list B) :
  List.length xs = List.length (leaves t) ->
  exists t' : pytree B,
    tree_unflatten (tree_structure t) xs = Some t' /\
    tree_structure t' = tree_structure t /\
    leaves t' = xs.
Proof.
  intros H. destruct (unflatten_from_structure t xs [] H) as [t' [U [S L]]].
  exists t'. unfold tree_unflatten. rewrite app_nil_r in U. rewrite U.
  repeat split; assumption.
Qed.

(** *** Capture on actual arguments *)

Lemma capture_run f (t0 : pytree val) s :
  exists (t' : pytree val) (s0 : state),
    trace s0 = [] /\
    tree_structure t' = tree_structure t0 /\
    _initial_style_jaxpr f (tree_structure t0)
      (map _abstractify (leaves t0)) s =
    match f (star_args t') s0 with
    | (Ok ans, s') =>
        (Ok (Jaxpr (map _abstractify (leaves t0)) (trace s')
                   (map _abstractify (leaves ans)),
             closed_over (next_tracer s) (trace s') (leaves ans),
             tree_structure ans),
         set_trace (trace s) s')
    | (Raise e, s') => (Raise e, set_trace (trace s) s')
    end.
Proof.
  destruct (new_tracers_frame (map _abstractify (leaves t0))
              (set_trace [] s)) as [vs Hvs].
  pose proof (new_tracers_avals _ _ _ _ Hvs) as Ha.
  assert (Hlen : List.length vs = List.length (leaves t0)).
  { rewrite <- (List.length_map _abstractify vs), Ha.
    apply List.length_map. }
  destruct (tree_unflatten_structure t0 vs Hlen) as [t' [U [S _]]].
  match type of Hvs with _ = (_, ?st) => exists t', st end.
  split; [reflexivity|]. split; [exact S|].
  unfold _initial_style_jaxpr. rewrite (mbind_Ok _ _ _ _ _ Hvs).
  rewrite U. unfold tree_flatten.
  match goal with
  | |- context [f (star_args t') ?st] =>
      destruct (f (star_args t') st) as [[ans|e] s']
  end; reflexivity.
Qed.

Lemma make_jaxpr_run f args s :
  exists (args' : list (pytree val)) (s0 : state),
    trace s0 = [] /\
    make_jaxpr f args s =
    match f args' s0 with
    | (Ok ans, s') =>
        (Ok (Jaxpr (map _abstractify (leaves (PTuple args))) (trace s')
                   (map _abstractify (leaves ans))),
         set_trace (trace s) s')
    | (Raise e, s') => (Raise e, set_trace (trace s) s')
    end.
Proof.
  destruct (capture_run f (PTuple args) s) as [t' [s0 [T [S H]]]].
  exists (star_args t'), s0. split; [exact T|].
  unfold make_jaxpr, tree_flatten. rewrite mbind_run, H.
  destruct (f (star_args t') s0) as [[ans|e] s']; reflexivity.
Qed.

Lemma make_jaxpr_of_function_like f args s :
  binds_one_function_call f ->
  exists j s1 e,
    make_jaxpr f args s = (Ok j, s1) /\
    eqns j = [e] /\ eqn_primitive e = func_p /\ trace s1 = trace s.
Proof.
  intros Hf. destruct (make_jaxpr_run f args s) as [args' [s0 [T H]]].
  destruct (Hf args' s0) as [out [s' [e [Hc [Ht Hp]]]]].
  rewrite Hc in H. rewrite T in Ht. simpl in Ht.
  eexists _, _, e. split; [exact H|]. simpl. rewrite Ht.
  repeat split. exact Hp.
Qed.

Lemma function_binds_one_function_call (f : callable) :
  always_captured (callable_call f) ->
  binds_one_function_call (Function.__call__ (Function.mk f)).
Proof.
  intros Hf args s. destruct (Hf args s) as [j [s1 Hj]].
  pose proof (make_jaxpr_trace (callable_call f) args s) as T.
  rewrite Hj in T. simpl in T.
  unfold Function.__call__. cbn [Function.fn].
  rewrite (mbind_Ok _ _ _ _ _ Hj). unfold func_bind.
  destruct (Primitive_bind_trace func_p (leaves (PTuple args)) [j]
              [("fn", PyStr (Function.__name__ (Function.mk f)))]
              (out_avals j) s1) as [outs [s' [Hb [Ht _]]]].
  rewrite (mbind_Ok _ _ _ _ _ Hb).
  eexists _, s', _. split; [reflexivity|].
  split; [rewrite Ht, T; reflexivity|reflexivity].
Qed.

Lemma square_always_captured : always_captured (callable_call square).
Proof.
  intros args s.
  destruct (make_jaxpr_run (callable_call square) args s)
    as [args' [s0 [T H]]].
  unfold square in H. cbn [callable_call] in H.
  destruct (Primitive_bind_trace (other_p "mul")
              (leaves (PTuple args') ++ leaves (PTuple args')) [] []
              [scalar float64 true] s0) as [outs [s' [Hb _]]].
  rewrite (mbind_Ok _ _ _ _ _ Hb) in H.
  eexists _, _. exact H.
Qed.

(** X12: when every call of the callable wrapped by a [Grad] object
    binds exactly one function-call operation, as the calls of [Function]
    and of a quantum node do, a call of the [Grad] object passes both of
    its assertions, from every state and on all arguments: it binds one
    gradient operation in the enclosing program, on the flattened
    arguments, carrying the captured single-call program, the method,
    the step size and the argument indices. *)
Theorem grad_call_of_function_like :
  forall (g : Grad.t) (args : list (pytree val)) (s : state),
    binds_one_function_call (callable_call (Grad.fn g)) ->
    exists j e outs s',
      Grad.__call__ g args s = (Ok (PSeq (map PLeaf outs)), s') /\
      eqns j = [e] /\ eqn_primitive e = func_p /\
      trace s'
        = trace s ++
          [Eqn grad_p (leaves (PTuple args)) [j]
               [("fn", PyStr (Grad.__name__ g));
                ("method", PyStr (Grad.method g));
                ("h", Grad.h g); ("argnum", Grad.argnum g)]
               outs].
Proof.
  intros g args s Hf.
  destruct (make_jaxpr_of_function_like _ args s Hf)
    as [j [s1 [e [Hj [He [Hp T]]]]]].
  unfold Grad.__call__. rewrite (mbind_Ok _ _ _ _ _ Hj).
  rewrite He. simpl List.length. change (Nat.eqb 1 1) with true.
  rewrite (proj2 (primitive_eqb_eq _ _) Hp).
  unfold assert.
  rewrite (mbind_Ok (ret tt) _ s1 tt s1 eq_refl).
  rewrite (mbind_Ok (ret tt) _ s1 tt s1 eq_refl).
  unfold grad_bind.
  destruct (Primitive_bind_trace grad_p (leaves (PTuple args)) [j]
              [("fn", PyStr (Grad.__name__ g));
               ("method", PyStr (Grad.method g));
               ("h", Grad.h g); ("argnum", Grad.argnum g)]
              (out_avals j) s1) as [outs [s' [Hb [Ht _]]]].
  rewrite (mbind_Ok _ _ _ _ _ Hb).
  exists j, e, outs, s'. split; [reflexivity|].
  split; [exact He|]. split; [exact Hp|]. rewrite Ht, T. reflexivity.
Qed.

Lemma grad_call_of_function_like_witness :
  exists j e outs s',
    Grad.__call__ sample_grad [PLeaf (VFloat 2 0)] classical_state
      = (Ok (PSeq (map PLeaf outs)), s') /\
    eqns j = [e] /\ eqn_primitive e = func_p /\
    trace s'
      = [Eqn grad_p [VFloat 2 0] [j]
             [("fn", PyStr "grad.square"); ("method", PyStr "fd");
              ("h", default_h); ("argnum", PyList [PyInt 0])]
             outs].
Proof.
  exact (grad_call_of_function_like
           sample_grad [PLeaf (VFloat 2 0)] classical_state
           (function_binds_one_function_call square square_always_captured)).
Defined.

(** X13: [grad] composed with the call of its result. For a callable
    that is not a quantum node and that can always be captured, every
    request that [grad] accepts can be called on all arguments and from
    every state: the [Function] wrapper makes the captured program a
    single function call, so neither assertion of the call fails, and one
    gradient operation named ["grad."] followed by the name of the
    callable is bound. *)
Theorem grad_of_plain_callable_is_well_defined :
  forall (f : callable) (m : option string) (h a : pyobj) (g : Grad.t)
         (args : list (pytree val)) (s : state),
    is_QNode f = false ->
    always_captured (callable_call f) ->
    grad f m h a = Ok g ->
    exists j outs s',
      Grad.__call__ g args s = (Ok (PSeq (map PLeaf outs)), s') /\
      trace s'
        = trace s ++
          [Eqn grad_p (leaves (PTuple args)) [j]
               [("fn", PyStr (String.append "grad." (callable_name f)));
                ("method", PyStr (Grad.method g));
                ("h", Grad.h g); ("argnum", Grad.argnum g)]
               outs].
Proof.
  intros f m h a g args s Hq Hf Hg.
  assert (Hfn : Grad.fn g = Function.as_callable (Function.mk f)).
  { revert Hg. unfold grad, Grad.__init__. rewrite Hq.
    repeat match goal with
           | |- context [if ?c then _ else _] => destruct c
           end; intros H; inversion H; reflexivity. }
  assert (Hb : binds_one_function_call (callable_call (Grad.fn g))).
  { rewrite Hfn. apply function_binds_one_function_call. exact Hf. }
  destruct (grad_call_of_function_like g args s Hb)
    as [j [e [outs [s' [Hc [_ [_ Ht]]]]]]].
  exists j, outs, s'. split; [exact Hc|].
  rewrite Ht. unfold Grad.__name__. rewrite Hfn. reflexivity.
Qed.

Lemma grad_of_plain_callable_is_well_defined_witness :
  exists g j outs s',
    grad square (Some "fd") (PyFloat 1 (-3)) (PyInt 0) = Ok g /\
    Grad.__call__ g [PLeaf (VFloat 2 0)] classical_state
      = (Ok (PSeq (map PLeaf outs)), s') /\
    trace s'
      = [Eqn grad_p [VFloat 2 0] [j]
             [("fn", PyStr "grad.square"); ("method", PyStr "fd");
              ("h", PyFloat 1 (-3)); ("argnum", PyList [PyInt 0])]
             outs].
Proof.
  evaluate (grad square (Some "fd") (PyFloat 1 (-3)) (PyInt 0)) Hg.
  match type of Hg with
  | _ = Ok ?g =>
      destruct (grad_of_plain_callable_is_well_defined
                  square (Some "fd") (PyFloat 1 (-3)) (PyInt 0) g
                  [PLeaf (VFloat 2 0)] classical_state
                  eq_refl square_always_captured Hg)
        as [j [outs [s' [Hc Ht]]]];
      exists g, j, outs, s'; split; [exact Hg|]; split; [exact Hc|exact Ht]
  end.
Defined.

(** *** Quantum functions *)

(** X14: a quantum node whose device is not [lightning.qubit] cannot be
    compiled: its call raises [TypeError] at once, whatever the tracing
    function is, leaving the state as it was; nothing is captured or
    bound. *)
Theorem qnode_needs_lightning_qubit :
  forall (get_traceable_fn : pyfun -> Device -> pyfun) (self : QFunc.t)
         (args : list (pytree val)) (s : state),
    QFunc.isinstance_QNode self = true ->
    String.eqb (dev_short_name (QFunc.device self)) "lightning.qubit"
      = false ->
    QFunc.__call__ get_traceable_fn self args s
      = (Raise (TypeError QFunc.msg_only_lightning), s).
Proof.
  intros gtf self args s Hq Hd. unfold QFunc.__call__.
  rewrite Hq, Hd. reflexivity.
Qed.

Lemma qnode_needs_lightning_qubit_witness :
  QFunc.__call__ plain_traceable_fn default_qubit_node [PLeaf (VInt 0)]
                 classical_state
  = (Raise (TypeError QFunc.msg_only_lightning), classical_state).
Proof.
  exact (qnode_needs_lightning_qubit plain_traceable_fn default_qubit_node
           [PLeaf (VInt 0)] classical_state eq_refl eq_refl).
Defined.

(** X15: the call of a quantum function captures the traceable function
    of its device and binds exactly one function-call operation, on the
    flattened arguments, carrying the captured program and the name of
    the function. A quantum node on [lightning.qubit] is traced on a new
    [QJITDevice] with the shots and wires of its own device; a [QFunc]
    that is not a quantum node is traced on the device it was built
    with. *)
Theorem qfunc_call_binds_one_node :
  forall (get_traceable_fn : pyfun -> Device -> pyfun) (self : QFunc.t)
         (args : list (pytree val)) (s : state) (j : jaxpr) (s1 : state),
    let dev :=
      if QFunc.isinstance_QNode self
      then mkDevice "qjit.device" (dev_shots (QFunc.device self))
                    (dev_wires (QFunc.device self))
      else QFunc.device self in
    (QFunc.isinstance_QNode self = true ->
     dev_short_name (QFunc.device self) = "lightning.qubit") ->
    make_jaxpr (get_traceable_fn (QFunc.func self) dev) args s
      = (Ok j, s1) ->
    exists outs s',
      QFunc.__call__ get_traceable_fn self args s
        = (Ok (PSeq (map PLeaf outs)), s') /\
      trace s'
        = trace s ++
          [Eqn func_p (leaves (PTuple args)) [j]
               [("fn", PyStr (QFunc.func_name self))] outs] /\
      map _abstractify outs = out_avals j.
Proof.
  intros gtf self args s j s1 dev Hd Hj.
  pose proof (make_jaxpr_trace (gtf (QFunc.func self) dev) args s) as T.
  rewrite Hj in T. simpl in T.
  unfold QFunc.__call__.
  assert (Hdev :
            (if QFunc.isinstance_QNode self
             then
               if negb (String.eqb (dev_short_name (QFunc.device self))
                                   "lightning.qubit")
               then raise (TypeError QFunc.msg_only_lightning)
               else ret (new_QJITDevice (dev_shots (QFunc.device self))
                                        (dev_wires (QFunc.device self)))
             else ret (QFunc.device self)) s = (Ok dev, s)).
  { subst dev. destruct (QFunc.isinstance_QNode self); [|reflexivity].
    rewrite (Hd eq_refl). reflexivity. }
  rewrite (mbind_Ok _ _ _ _ _ Hdev). cbv zeta.
  rewrite (mbind_Ok _ _ _ _ _ Hj). unfold func_bind.
  destruct (Primitive_bind_trace func_p (leaves (PTuple args)) [j]
              [("fn", PyStr (QFunc.func_name self))]
              (out_avals j) s1) as [outs [s' [Hb [Ht _]]]].
  exists outs, s'. rewrite (mbind_Ok _ _ _ _ _ Hb).
  split; [reflexivity|]. split; [rewrite Ht, T; reflexivity|].
  exact (Primitive_bind_avals _ _ _ _ _ _ _ _ Hb).
Qed.

Lemma qfunc_call_binds_one_node_witness :
  exists j outs s',
    QFunc.__call__ plain_traceable_fn lightning_node [PLeaf (VInt 0)]
                   classical_state
      = (Ok (PSeq (map PLeaf outs)), s') /\
    trace s' = [Eqn func_p [VInt 0] [j] [("fn", PyStr "circuit")] outs].
Proof.
  evaluate (make_jaxpr
              (plain_traceable_fn (QFunc.func lightning_node)
                 (mkDevice "qjit.device" PyNone (PyInt 1)))
              [PLeaf (VInt 0)] classical_state) Hj.
  match type of Hj with
  | _ = (Ok ?j, ?s1) =>
      destruct (qfunc_call_binds_one_node
                  plain_traceable_fn lightning_node [PLeaf (VInt 0)]
                  classical_state j s1 (fun _ => eq_refl) Hj)
        as [outs [s' [Hc [Ht _]]]];
      exists j, outs, s'; split; [exact Hc|exact Ht]
  end.
Defined.

(** A quantum function declared with [qfunc] and no device is traced on
    a [QJITDevice] with the wires given and the shots given, 1000 when
    they are left out; with a device, on that device. It is not a quantum
    node, so the name of its device is never looked at. *)
Lemma qfunc_default_device :
  forall (get_traceable_fn : pyfun -> Device -> pyfun)
         (num_wires : pyobj) (shots : option pyobj) (dev : option Device)
         (name : string) (fn : pyfun)
         (args : list (pytree val)) (s : state),
    let used :=
      match dev with
      | Some d => d
      | None =>
          mkDevice "qjit.device"
                   (match shots with Some n => n | None => PyInt 1000 end)
                   num_wires
      end in
    QFunc.device (qfunc num_wires shots dev name fn) = used /\
    QFunc.__call__ get_traceable_fn (qfunc num_wires shots dev name fn)
                   args s
    = (jaxpr_ <- make_jaxpr (get_traceable_fn fn used) args ;;
       retval <- func_bind jaxpr_ (leaves (PTuple args)) name ;;
       ret (PSeq (map PLeaf retval))) s.
Proof.
  intros gtf n shots dev name fn args s used. subst used.
  unfold qfunc, QFunc.__call__. cbn [QFunc.isinstance_QNode QFunc.device
                                     QFunc.func QFunc.func_name].
  split.
  - destruct dev, shots; reflexivity.
  - destruct dev, shots; reflexivity.
Qed.

(** *** Register threading *)

Lemma thread_register_result ops :
  forall q s, exists q' s',
    thread_register ops q s = (Ok q', s') /\
    (q' = q \/ exists n, q' = PLeaf (Tracer n AbstractQreg)).
Proof.
  induction ops as [|op rest IH]; intros q s.
  - exists q, s. split; [reflexivity|left; reflexivity].
  - cbn [thread_register]. unfold mbind at 1, new_tracer at 1.
    cbv beta iota. unfold mbind at 1. cbv beta iota.
    match goal with
    | |- context [thread_register rest ?q0 ?s0] =>
        destruct (IH q0 s0) as [q' [s' [H Hq]]]
    end.
    exists q', s'. split; [exact H|]. right.
    destruct Hq as [-> | Hq]; [eexists; reflexivity|exact Hq].
Qed.

Lemma run_on_tape_result fn q flag s out s' :
  run_on_tape fn q flag s = (Ok out, s') ->
  exists rv q',
    out = PTuple [rv; q'] /\
    (q' = q \/ exists n, q' = PLeaf (Tracer n AbstractQreg)).
Proof.
  unfold run_on_tape. rewrite mbind_run.
  destruct (with_JaxTape fn s) as [[[o tape]|e] s1]; [|discriminate].
  cbv beta iota. rewrite mbind_run.
  destruct (QJITDevice.expand_fn tape) as [nt|e]; [|discriminate].
  cbn [lift]. unfold ret at 1. cbv beta iota.
  rewrite mbind_run. unfold trace_quantum_tape. rewrite mbind_run.
  destruct (thread_register_result (circuit_operations nt) q s1)
    as [q' [s2 [H Hq]]].
  rewrite H. unfold ret at 1. cbv beta iota.
  unfold insert_to_qreg. rewrite mbind_run. unfold ret. cbv beta iota.
  intros E. inversion E. subst.
  eexists _, q'. split; [reflexivity|exact Hq].
Qed.

Lemma cond_branch_capture (m : M (pytree val)) flag e0 s j c t s' :
  _initial_style_jaxpr
    (fun args =>
       match args with
       | [qreg] => run_on_tape m qreg flag
       | _ => raise e0
       end)
    (TTuple [TLeaf]) [AbstractQreg] s = (Ok (j, c, t), s') ->
  exists rv : pytree val,
    out_avals j = map _abstractify (leaves rv) ++ [AbstractQreg] /\
    t = TTuple [tree_structure rv; TLeaf].
Proof.
  unfold _initial_style_jaxpr.
  assert (Hnt : new_tracers [AbstractQreg] (set_trace [] s)
                = (Ok [Tracer (next_tracer s) AbstractQreg],
                   mkState (is_tracing s) [] (active_contexts s)
                           (S (next_tracer s)) (uuid_source s)
                           (uuid_drawn s))) by reflexivity.
  rewrite (mbind_Ok _ _ _ _ _ Hnt).
  change (tree_unflatten (TTuple [TLeaf])
                         [Tracer (next_tracer s) AbstractQreg])
    with (Some (PTuple [PLeaf (Tracer (next_tracer s) AbstractQreg)])).
  cbv beta iota.
  change (star_args (PTuple [PLeaf (Tracer (next_tracer s) AbstractQreg)]))
    with [PLeaf (Tracer (next_tracer s) AbstractQreg)].
  cbv iota.
  match goal with
  | |- context [run_on_tape m ?q flag ?s0] =>
      destruct (run_on_tape m q flag s0) as [[ans|e] s1] eqn:Hrun
  end; [|discriminate].
  unfold tree_flatten. intros H. inversion H. subst. clear H.
  destruct (run_on_tape_result _ _ _ _ _ _ Hrun) as [rv [q' [-> Hq]]].
  exists rv.
  assert (Hleaf : exists k, q' = PLeaf (Tracer k AbstractQreg)).
  { destruct Hq as [-> | Hq]; [eexists; reflexivity|exact Hq]. }
  destruct Hleaf as [k ->]. simpl. rewrite map_app. split; reflexivity.
Qed.

Lemma common_consts_inv f1 f2 in_tree avals s tj fj consts trees s1 :
  _initial_style_jaxprs_with_common_consts f1 f2 in_tree avals s
    = (Ok ((tj, fj), consts, trees), s1) ->
  exists c1 t1 s0 c2 t2,
    _initial_style_jaxpr f1 in_tree avals s = (Ok (tj, c1, t1), s0) /\
    _initial_style_jaxpr f2 in_tree avals s0 = (Ok (fj, c2, t2), s1) /\
    trees = [t1; t2].
Proof.
  unfold _initial_style_jaxprs_with_common_consts. rewrite mbind_run.
  destruct (_initial_style_jaxpr f1 in_tree avals s)
    as [[[[j1 c1] t1]|e] s0] eqn:E1; [|discriminate].
  rewrite mbind_run.
  destruct (_initial_style_jaxpr f2 in_tree avals s0)
    as [[[[j2 c2] t2]|e] s2] eqn:E2; [|discriminate].
  intros H. inversion H. subst.
  exists c1, t1, s0, c2, t2. split; [reflexivity|split; [exact E2|reflexivity]].
Qed.

(** X16: in quantum mode the last output of each captured branch of a
    conditional is the register, after the outputs of the branch
    function, so the check of the branches compares exactly the outputs
    of the two functions: when they differ the invocation raises
    [TypeError] in the state the captures left, and when they agree the
    check passes. *)
Theorem quantum_cond_compares_user_outputs :
  forall (self : CondCallable.t) (ctx : QuantumTape) (s : state)
         tj fj consts trees s1,
    _initial_style_jaxprs_with_common_consts
      (CondCallable.new_true_fn self) (CondCallable.new_false_fn self)
      (TTuple [TLeaf]) [AbstractQreg] s
      = (Ok ((tj, fj), consts, trees), s1) ->
    exists ut uf tt_ tf_,
      out_avals tj = ut ++ [AbstractQreg] /\
      out_avals fj = uf ++ [AbstractQreg] /\
      trees = [TTuple [tt_; TLeaf]; TTuple [tf_; TLeaf]] /\
      (ut <> uf ->
       CondCallable.call_with_quantum_ctx self ctx s
         = (Raise (TypeError CondCallable.msg_return_types), s1)) /\
      (ut = uf ->
       CondCallable.check_branches_return_types tj fj = Ok tt).
Proof.
  intros self ctx s tj fj consts trees s1 Hc.
  destruct (common_consts_inv _ _ _ _ _ _ _ _ _ _ Hc)
    as [c1 [t1 [s0 [c2 [t2 [H1 [H2 ->]]]]]]].
  destruct (cond_branch_capture _ _ _ _ _ _ _ _ H1) as [rt [Ot ->]].
  destruct (cond_branch_capture _ _ _ _ _ _ _ _ H2) as [rf [Of ->]].
  exists (map _abstractify (leaves rt)), (map _abstractify (leaves rf)),
    (tree_structure rt), (tree_structure rf).
  split; [exact Ot|]. split; [exact Of|]. split; [reflexivity|]. split.
  - intros Hne. apply (cond_quantum_mismatch_rejected _ _ _ _ _ _ _ _ Hc).
    rewrite Ot, Of, !but_last_app. exact Hne.
  - intros Heq.
    apply (proj1 (check_branches_return_types_spec tj fj)).
    rewrite Ot, Of, !but_last_app. exact Heq.
Qed.

Lemma quantum_cond_compares_user_outputs_witness :
  exists s1,
    CondCallable.call_with_quantum_ctx
      (CondCallable.__init__ (VBool true) lambda_1) (mkTape true [] [])
      quantum_state
    = (Raise (TypeError CondCallable.msg_return_types), s1).
Proof.
  evaluate (_initial_style_jaxprs_with_common_consts
              (CondCallable.new_true_fn
                 (CondCallable.__init__ (VBool true) lambda_1))
              (CondCallable.new_false_fn
                 (CondCallable.__init__ (VBool true) lambda_1))
              (TTuple [TLeaf]) [AbstractQreg] quantum_state) Hc.
  match type of Hc with
  | _ = (Ok ((?tj, ?fj), ?consts, ?trees), ?s1) =>
      destruct (quantum_cond_compares_user_outputs
                  (CondCallable.__init__ (VBool true) lambda_1)
                  (mkTape true [] []) quantum_state
                  tj fj consts trees s1 Hc)
        as [ut [uf [t1 [t2 [Ot [Of [_ [Hne _]]]]]]]];
      exists s1; apply Hne;
      destruct (app_inj_tail ut [scalar int64 true]
                             AbstractQreg AbstractQreg (eq_sym Ot))
        as [-> _];
      destruct (app_inj_tail uf [] AbstractQreg AbstractQreg (eq_sym Of))
        as [-> _];
      discriminate
  end.
Defined.

(** X17: a conditional invoked in a recording context that has no
    tracing support (no [jax_tape]), with branches that pass the check,
    queues its [Cond] operation into the active context and only then
    fails, with [AttributeError], when it asks the context for tracers:
    the failed call leaves the operation on the tape. *)
Theorem cond_queues_before_failing :
  forall (self : CondCallable.t) (ctx : QuantumTape) (s : state)
         tj fj consts trees s1 c0 rest,
    has_jax_tape ctx = false ->
    _initial_style_jaxprs_with_common_consts
      (CondCallable.new_true_fn self) (CondCallable.new_false_fn self)
      (TTuple [TLeaf]) [AbstractQreg] s
      = (Ok ((tj, fj), consts, trees), s1) ->
    but_last (out_avals tj) = but_last (out_avals fj) ->
    active_contexts s1 = c0 :: rest ->
    exists msg,
      CondCallable.call_with_quantum_ctx self ctx s
        = (Raise (AttributeError msg),
           set_contexts
             (tape_append
                (Cond (CondCallable.pred self) consts tj fj (TTuple [TLeaf])
                      trees) c0 :: rest) s1).
Proof.
  intros self ctx s tj fj consts trees s1 c0 rest Hj Hc Heq Hctx.
  destruct (common_consts_inv _ _ _ _ _ _ _ _ _ _ Hc)
    as [c1 [t1 [s0 [c2 [t2 [H1 [H2 Htrees]]]]]]].
  destruct (cond_branch_capture _ _ _ _ _ _ _ _ H1) as [rt [Ot Ht1]].
  unfold CondCallable.call_with_quantum_ctx.
  change (tree_flatten (PTuple [PLeaf Qreg])) with ([Qreg], TTuple [TLeaf]).
  cbv beta iota zeta.
  change (map _abstractify [Qreg]) with [AbstractQreg].
  rewrite (mbind_Ok _ _ _ _ _ Hc). cbv beta iota.
  rewrite (proj1 (check_branches_return_types_spec tj fj) Heq).
  rewrite (mbind_Ok (lift (Ok tt)) _ s1 tt s1 eq_refl).
  rewrite (mbind_Ok _ _ _ _ _ (queue_run _ _ _ _ Hctx)).
  rewrite Htrees. cbn [nth]. rewrite Ht1, Ot.
  destruct (tree_unflatten_structure
              (PTuple [rt; PLeaf Qreg])
              (map _abstractify (leaves rt) ++ [AbstractQreg]))
    as [t' [U [S _]]].
  { simpl. rewrite !List.length_app, List.length_map. reflexivity. }
  simpl in U, S.
  unfold tracers_for_non_qreg, unflatten_or_raise. rewrite mbind_run, U.
  unfold ret at 1. cbv beta iota.
  destruct t' as [| |l|]; try discriminate.
  destruct l as [|x [|y [|z l]]]; try discriminate.
  unfold tree_flatten. rewrite Hj.
  eexists. reflexivity.
Qed.

Lemma cond_queues_before_failing_witness :
  exists msg node s',
    CondCallable.call_with_quantum_ctx
      (CondCallable.__init__ (VBool true) lambda_None) (mkTape false [] [])
      plain_queue_state
    = (Raise (AttributeError msg), s') /\
    active_contexts s' = [mkTape false [node] []] /\
    op_name node = "Cond".
Proof.
  evaluate (_initial_style_jaxprs_with_common_consts
              (CondCallable.new_true_fn
                 (CondCallable.__init__ (VBool true) lambda_None))
              (CondCallable.new_false_fn
                 (CondCallable.__init__ (VBool true) lambda_None))
              (TTuple [TLeaf]) [AbstractQreg] plain_queue_state) Hc.
  match type of Hc with
  | _ = (Ok ((?tj, ?fj), ?consts, ?trees), ?s1) =>
      destruct (cond_queues_before_failing
                  (CondCallable.__init__ (VBool true) lambda_None)
                  (mkTape false [] []) plain_queue_state
                  tj fj consts trees s1 (mkTape false [] []) []
                  eq_refl Hc eq_refl eq_refl) as [msg H];
      exists msg; do 2 eexists; split; [exact H|]; split; reflexivity
  end.
Defined.

(** *** While loops invoked in quantum mode *)

Lemma WhileCallable_create_jaxpr_inv init_val nc nb s bj cj cc bc bt s1 :
  WhileCallable._create_jaxpr init_val nc nb s
    = (Ok (bj, cj, cc, bc, bt), s1) ->
  exists ct s0,
    _initial_style_jaxpr nc (tree_structure init_val)
      (map _abstractify (leaves init_val)) s = (Ok (cj, cc, ct), s0) /\
    _initial_style_jaxpr nb (tree_structure init_val)
      (map _abstractify (leaves init_val)) s0 = (Ok (bj, bc, bt), s1).
Proof.
  unfold WhileCallable._create_jaxpr, tree_flatten. rewrite mbind_run.
  destruct (_initial_style_jaxpr nc _ _ s) as [[[[cj0 cc0] ct0]|e] s0]
    eqn:Hc; [|discriminate].
  rewrite mbind_run.
  destruct (_initial_style_jaxpr nb _ _ s0) as [[[[bj0 bc0] bt0]|e] s2]
    eqn:Hb; [|discriminate].
  destruct (negb (treedef_is_leaf ct0) || _); [discriminate|].
  destruct (out_avals cj0) as [|p r]; [discriminate|].
  destruct (negb (WhileCallable.is_boolean_scalar p)); [discriminate|].
  intros H. inversion H. subst.
  exists ct0, s0. split; [reflexivity|exact Hb].
Qed.

(** C9: every while loop invoked in quantum mode (in a tracing context,
    with an active recording context) captures as its predicate
    sub-program the function [new_cond] on the whole loop-carried state,
    whose last input is the register: an invocation that returns has
    captured [new_cond] and then [new_body] on the arguments followed by
    the register, the inputs of the predicate sub-program are the types
    of the arguments followed by the type of the register, and that
    sub-program is the one the queued [WhileLoop] node carries. [new_cond]
    applies the predicate function to the arguments without the last one:
    for equal arguments and any two registers it does the same and
    returns the same, from every state. *)
Theorem while_predicate_ignores_register :
  forall (self : WhileCallable.t) (args : list (pytree val)) (s : state)
         (ctx : QuantumTape) (others : list QuantumTape),
    is_tracing s = true ->
    active_contexts s = ctx :: others ->
    (forall (a : list (pytree val)) (q1 q2 : pytree val) (st : state),
       WhileCallable.new_cond self (a ++ [q1]) st
         = WhileCallable.new_cond self (a ++ [q2]) st) /\
    (forall (a : list (pytree val)) (q : pytree val) (st : state),
       WhileCallable.new_cond self (a ++ [q]) st
         = WhileCallable.cond_fn self a st) /\
    (forall out s',
       WhileCallable.__call__ self args s = (Ok out, s') ->
       exists cj cc ct s0 bj bc bt s1,
         _initial_style_jaxpr (WhileCallable.new_cond self)
           (tree_structure (PTuple (args ++ [PLeaf Qreg])))
           (map _abstractify (leaves (PTuple (args ++ [PLeaf Qreg]))))
           s = (Ok (cj, cc, ct), s0) /\
         _initial_style_jaxpr (WhileCallable.new_body self)
           (tree_structure (PTuple (args ++ [PLeaf Qreg])))
           (map _abstractify (leaves (PTuple (args ++ [PLeaf Qreg]))))
           s0 = (Ok (bj, bc, bt), s1) /\
         in_avals cj
           = map _abstractify (leaves (PTuple args)) ++ [AbstractQreg] /\
         (forall c0 rest,
            active_contexts s1 = c0 :: rest ->
            active_contexts s'
              = tape_append
                  (WhileLoop (leaves (PTuple args)) bj cj cc bc bt) c0
                  :: rest)).
Proof.
  intros self args s ctx others Htr Hctx.
  split; [|split].
  - intros a q1 q2 st. unfold WhileCallable.new_cond.
    rewrite !but_last_app. reflexivity.
  - intros a q st. unfold WhileCallable.new_cond.
    rewrite but_last_app. reflexivity.
  - intros out s'.
    unfold WhileCallable.__call__, check_is_tracing, active_context.
    rewrite mbind_run, Htr, mbind_run, Hctx. cbn [hd_error].
    unfold WhileCallable.call_with_quantum_ctx. rewrite mbind_run.
    destruct (WhileCallable._create_jaxpr (PTuple (args ++ [PLeaf Qreg]))
                (WhileCallable.new_cond self) (WhileCallable.new_body self) s)
      as [[[[[[bj cj] cc] bc] bt]|e] s1] eqn:Hj; [|discriminate].
    cbv beta iota zeta. intros Hcall.
    destruct (WhileCallable_create_jaxpr_inv _ _ _ _ _ _ _ _ _ _ Hj)
      as [ct [s0 [Hc Hb]]].
    exists cj, cc, ct, s0, bj, bc, bt, s1.
    split; [exact Hc|]. split; [exact Hb|]. split.
    + apply initial_style_jaxpr_in_avals in Hc.
      rewrite Hc, leaves_tuple_app, map_app. reflexivity.
    + intros c0 rest Hs1.
      rewrite (mbind_Ok _ _ _ _ _ (queue_run _ _ _ _ Hs1)) in Hcall.
      pose proof (proj2 (tracers_for_non_qreg_frame ctx bt (out_avals bj)
                    (set_contexts
                       (tape_append
                          (WhileLoop (fst (tree_flatten (PTuple args)))
                                     bj cj cc bc bt) c0 :: rest) s1))) as F.
      rewrite Hcall in F. exact F.
Qed.

Lemma while_predicate_ignores_register_witness :
  exists out s',
    WhileCallable.__call__ sample_while_loop [PLeaf (VInt 0)] quantum_state
      = (Ok out, s') /\
    exists cj cc ct s0 bj bc bt s1,
      _initial_style_jaxpr (WhileCallable.new_cond sample_while_loop)
        (tree_structure (PTuple ([PLeaf (VInt 0)] ++ [PLeaf Qreg])))
        (map _abstractify (leaves (PTuple ([PLeaf (VInt 0)] ++ [PLeaf Qreg]))))
        quantum_state = (Ok (cj, cc, ct), s0) /\
      _initial_style_jaxpr (WhileCallable.new_body sample_while_loop)
        (tree_structure (PTuple ([PLeaf (VInt 0)] ++ [PLeaf Qreg])))
        (map _abstractify (leaves (PTuple ([PLeaf (VInt 0)] ++ [PLeaf Qreg]))))
        s0 = (Ok (bj, bc, bt), s1) /\
      in_avals cj = [scalar int64 true; AbstractQreg] /\
      (forall c0 rest,
         active_contexts s1 = c0 :: rest ->
         active_contexts s'
           = tape_append (WhileLoop [VInt 0] bj cj cc bc bt) c0 :: rest).
Proof.
  evaluate (WhileCallable.__call__ sample_while_loop [PLeaf (VInt 0)]
                                   quantum_state) H.
  match type of H with
  | _ = (Ok ?out, ?s') =>
      exists out, s'; split; [exact H|];
      exact (proj2 (proj2 (while_predicate_ignores_register
                             sample_while_loop [PLeaf (VInt 0)]
                             quantum_state (mkTape true [] []) []
                             eq_refl eq_refl)) out s' H)
  end.
Defined.
